(** * trojan-go server pipeline: TLS, WebSocket and Trojan tunnel servers

    A shallow embedding of the accept paths of the tunnel servers
    ([tunnel/tls/server.go], the websocket and trojan servers) and of the
    helpers they use, with the properties the specification states about
    them. *)

From Stdlib Require Import String Ascii List ZArith Lia Bool.
From Stdlib.Strings Require Import Byte.
From stdpp Require Import gmap strings list pretty.

Local Open Scope string_scope.
Local Open Scope list_scope.

(** ** Go strings

    A Go [string] is a sequence of bytes, as a Rocq [string] is.  The
    functions below are the ones of package [strings] the servers call,
    written as their Go definitions: by lengths and slices. *)

Module GoStrings.

(** [s[lo:hi]]; the callers guarantee [lo <= hi <= len(s)]. *)
Definition slice (s : string) (lo hi : nat) : string :=
  substring lo (hi - lo) s.

(** [s[lo:]] *)
Definition slice_from (s : string) (lo : nat) : string :=
  slice s lo (String.length s).

(** [s[:hi]] *)
Definition slice_to (s : string) (hi : nat) : string :=
  slice s 0 hi.

(** [strings.HasPrefix]: [len(s) >= len(prefix) && s[:len(prefix)] == prefix] *)
Definition HasPrefix (s prefix : string) : bool :=
  (String.length prefix <=? String.length s)%nat
  && String.eqb (slice_to s (String.length prefix)) prefix.

(** [strings.HasSuffix]: [len(s) >= len(suffix) && s[len(s)-len(suffix):] == suffix] *)
Definition HasSuffix (s suffix : string) : bool :=
  (String.length suffix <=? String.length s)%nat
  && String.eqb (slice_from s (String.length s - String.length suffix)) suffix.

(** [strings.Contains]: [substr] occurs at some offset of [s]. *)
Fixpoint Contains (s substr : string) : bool :=
  HasPrefix s substr ||
  match s with
  | EmptyString => false
  | String _ s' => Contains s' substr
  end.

End GoStrings.

Import GoStrings.

(** ** tunnel/tls/server.go: isDomainNameMatched *)

Definition isDomainNameMatched (pattern domainName : string) : bool :=
  if HasPrefix pattern "*." then
    let suffix := slice_from pattern 2 in
    let domainPrefixLen :=
      (Z.of_nat (String.length domainName) - Z.of_nat (String.length suffix) - 1)%Z in
    HasSuffix domainName suffix
    && (0 <? domainPrefixLen)%Z
    && negb (Contains (slice_to domainName (Z.to_nat domainPrefixLen)) ".")
  else String.eqb pattern domainName.


(** ** Errors: the [error] interface and common/error.go *)

(** [common.Error] *)
Record Error := { info : string }.

(** The values of Go's [error] interface the servers meet. *)
Inductive error : Type :=
  | io_EOF
  | io_ErrUnexpectedEOF
  | io_ErrNoProgress
  | ErrBufferOverflow
  | common_Error (e : Error)
  | lib_error (msg : string).

(** [err.Error()] *)
Definition error_Error (e : error) : string :=
  match e with
  | io_EOF => "EOF"
  | io_ErrUnexpectedEOF => "unexpected EOF"
  | io_ErrNoProgress => "multiple Read calls return no data or error"
  | ErrBufferOverflow => "BufferOverflow"
  | common_Error e => info e
  | lib_error msg => msg
  end.

Definition NewError (info : string) : Error := {| info := info |}.

(** [func (e *Error) Base(err error) *Error] *)
Definition Base (e : Error) (err : option error) : Error :=
  match err with
  | Some err => {| info := info e +:+ " | " +:+ error_Error err |}
  | None => e
  end.

(** What a Go call does: it returns, it panics, or it waits (on a
    channel that nobody feeds). *)
Inductive outcome (A : Type) : Type :=
  | Returns (a : A)
  | Panics (msg : string)
  | Waits.
Arguments Returns {A} a.
Arguments Panics {A} msg.
Arguments Waits {A}.

(** ** Connections

    A [net.Conn] handed up by the lower layer is seen through what its
    [Read] delivers: the chunks still to arrive, each non-empty [Read]
    taking the next chunk or the part of it that fits.  [outgoing] holds
    what was written to the peer. *)

Definition bytes := list byte.

Record Conn := {
  incoming : list bytes;
  outgoing : bytes;
  closed : bool;
  remoteAddr : string          (* RemoteAddr().String() *)
}.

(** The next [Read] of at most [n] bytes: a read waits for data, so
    chunks without bytes are passed over. *)
Fixpoint next_chunk (n : nat) (chunks : list bytes) : option (bytes * list bytes) :=
  match chunks with
  | [] => None
  | ch :: rest =>
      match ch with
      | [] => next_chunk n rest
      | _ :: _ =>
          if (length ch <=? n)%nat then Some (ch, rest)
          else Some (take n ch, drop n ch :: rest)
      end
  end.

Definition Conn_with_incoming (c : Conn) (chunks : list bytes) : Conn :=
  {| incoming := chunks; outgoing := outgoing c; closed := closed c;
     remoteAddr := remoteAddr c |}.

(** [Read(p)] with [len(p) = n]: the bytes put in [p[:n']] and the error. *)
Definition Conn_Read (n : nat) (c : Conn) : (bytes * option error) * Conn :=
  match next_chunk n (incoming c) with
  | Some (d, rest) => ((d, None), Conn_with_incoming c rest)
  | None => (([], Some io_EOF), Conn_with_incoming c [])
  end.

Definition Conn_Write (p : bytes) (c : Conn) : Conn :=
  {| incoming := incoming c; outgoing := outgoing c ++ p; closed := closed c;
     remoteAddr := remoteAddr c |}.

Definition Conn_Close (c : Conn) : Conn :=
  {| incoming := incoming c; outgoing := outgoing c; closed := true;
     remoteAddr := remoteAddr c |}.

(** ** common.RewindConn *)

Module Rewind.

Record RewindConn := {
  under : Conn;              (* the wrapped net.Conn *)
  buf : bytes;
  index : nat;
  buffering : bool;
  bufferSize : nat
}.

(** Modelled from the spec: [common.NewRewindConn] (common/io.go is not
    among the sources): a wrapper [{buffer, index, buffering}] around
    the stream, not buffering until a buffer size is set. *)
Definition NewRewindConn (c : Conn) : RewindConn :=
  {| under := c; buf := []; index := 0; buffering := false; bufferSize := 0 |}.

(** Modelled from the spec: [RewindConn.SetBufferSize], called before
    any read; it sets the capacity and starts buffering. *)
Definition SetBufferSize (n : nat) (r : RewindConn) : RewindConn :=
  {| under := under r; buf := []; index := 0; buffering := true; bufferSize := n |}.

(** Modelled from the spec: [RewindConn.Rewind] resets [index] to 0. *)
Definition Rewind (r : RewindConn) : RewindConn :=
  {| under := under r; buf := buf r; index := 0; buffering := buffering r;
     bufferSize := bufferSize r |}.

(** Modelled from the spec: [RewindConn.StopBuffering]: no new buffering. *)
Definition StopBuffering (r : RewindConn) : RewindConn :=
  {| under := under r; buf := buf r; index := index r; buffering := false;
     bufferSize := bufferSize r |}.

(** Modelled from the spec: [RewindConn.Read].  Bytes of the buffer
    past [index] are drained first.  Otherwise the read goes to the
    stream; while buffering it copies into the buffer up to the
    capacity (appending and advancing [index]), and a read that finds
    the buffer full fails with [BufferOverflow]. *)
Definition Read (n : nat) (r : RewindConn) : (bytes * option error) * RewindConn :=
  if (index r <? length (buf r))%nat then
    let d := take n (drop (index r) (buf r)) in
    ((d, None),
     {| under := under r; buf := buf r; index := index r + length d;
        buffering := buffering r; bufferSize := bufferSize r |})
  else if buffering r then
    if (0 <? n)%nat && (bufferSize r <=? length (buf r))%nat then
      (([], Some ErrBufferOverflow), r)
    else
      let '((d, err), c) :=
        Conn_Read (Nat.min n (bufferSize r - length (buf r))) (under r) in
      ((d, err),
       {| under := c; buf := buf r ++ d; index := index r + length d;
          buffering := true; bufferSize := bufferSize r |})
  else
    let '((d, err), c) := Conn_Read n (under r) in
    ((d, err),
     {| under := c; buf := buf r; index := index r;
        buffering := false; bufferSize := bufferSize r |}).

(** Modelled from the spec: writes always pass through directly. *)
Definition Write (p : bytes) (r : RewindConn) : RewindConn :=
  {| under := Conn_Write p (under r); buf := buf r; index := index r;
     buffering := buffering r; bufferSize := bufferSize r |}.

Definition Close (r : RewindConn) : RewindConn :=
  {| under := Conn_Close (under r); buf := buf r; index := index r;
     buffering := buffering r; bufferSize := bufferSize r |}.

Definition RemoteAddr (r : RewindConn) : string := remoteAddr (under r).

(** The bytes a reader of [r] has still to get: the rest of the buffer,
    then the stream. *)
Definition pending (r : RewindConn) : bytes :=
  drop (index r) (buf r) ++ concat (incoming (under r)).

End Rewind.

Import Rewind.

(** ** Invariants of a rewind connection *)

(** A buffering connection that was not rewound: the buffer holds what
    was read, and the next read goes to the stream. *)
Definition tracking (r : RewindConn) : Prop :=
  buffering r = true /\ index r = length (buf r).

(** What has gone through the connection and what is still to come. *)
Definition stream (r : RewindConn) : bytes :=
  buf r ++ concat (incoming (under r)).

(** [r'] is [r] after some reading: nothing of the stream is lost. *)
Record advances (r r' : RewindConn) : Prop := {
  adv_tracking : tracking r';
  adv_stream : stream r' = stream r;
  adv_size : bufferSize r' = bufferSize r;
  adv_addr : Rewind.RemoteAddr r' = Rewind.RemoteAddr r
}.

(** ** Readers of a connection *)

(** [io.ReadFull(r, buf)] with [len(buf) = want], from package io:
    [ReadAtLeast] reads until [want] bytes are there or a read fails; an
    [EOF] after some bytes becomes [ErrUnexpectedEOF].  Every read
    without error brings a byte, so [want] rounds are enough. *)
Fixpoint ReadFull_loop (fuel want : nat) (acc : bytes) (r : RewindConn)
  : (bytes * option error) * RewindConn :=
  match want with
  | 0 => ((acc, None), r)
  | S _ =>
      match fuel with
      | 0 => ((acc, Some io_ErrNoProgress), r)
      | S fuel' =>
          let '((d, err), r') := Rewind.Read want r in
          match err with
          | None => ReadFull_loop fuel' (want - length d) (acc ++ d) r'
          | Some e =>
              let e' := match e, acc ++ d with
                        | io_EOF, _ :: _ => io_ErrUnexpectedEOF
                        | _, _ => e
                        end in
              ((acc ++ d, Some e'), r')
          end
      end
  end.

Definition ReadFull (want : nat) (r : RewindConn) : (bytes * option error) * RewindConn :=
  ReadFull_loop want want [] r.

(** The size of the buffer [io.Copy] reads into: 32 KiB. *)
Definition copy_buffer : nat := 32 * 1024.

(** The source side of [io.Copy(dst, r)]: reads until a read fails, the
    bytes copied so far in [acc]. *)
Fixpoint Copy_loop (fuel : nat) (acc : bytes) (r : RewindConn) : option bytes * RewindConn :=
  match fuel with
  | 0 => (None, r)
  | S fuel' =>
      let '((d, err), r') := Rewind.Read copy_buffer r in
      match err with
      | None => Copy_loop fuel' (acc ++ d) r'
      | Some _ => (Some (acc ++ d), r')
      end
  end.

(** Every read without error brings a byte: one round per pending byte
    and one for the failing read. *)
Definition Copy_from (r : RewindConn) : option bytes * RewindConn :=
  Copy_loop (S (length (Rewind.pending r))) [] r.

(** A library routine that reads from (and writes to) the connection it
    is given, as [http.ReadRequest] through its [bufio.Reader] and
    [tls.Conn.Handshake] do: the calls it makes, each continuing with
    what the call returned. *)
Inductive Reader (A : Type) : Type :=
  | Ret (a : A)
  | DoRead (n : nat) (k : bytes -> option error -> Reader A)
  | DoWrite (p : bytes) (k : Reader A).
Arguments Ret {A} a.
Arguments DoRead {A} n k.
Arguments DoWrite {A} p k.

Fixpoint run_Reader {A : Type} (p : Reader A) (r : RewindConn) : A * RewindConn :=
  match p with
  | Ret a => (a, r)
  | DoRead n k =>
      let '((d, err), r') := Rewind.Read n r in run_Reader (k d err) r'
  | DoWrite p k => run_Reader k (Rewind.Write p r)
  end.

(** ** Library functions the servers call

    Functions of Go's standard library whose results the servers only
    pass on. *)
(** The fields of [http.Request] the servers look at. *)
Record Request := {
  Header_Upgrade : string;       (* req.Header.Get("Upgrade") *)
  URL_Path : string              (* req.URL.Path *)
}.

Class GoLib := {
  (** [net.SplitHostPort]: host, port and error *)
  net_SplitHostPort : string -> (string * string) * option error;
  (** [strings.ToLower] *)
  strings_ToLower : string -> string;
  (** [http.ReadRequest(bufio.NewReader(conn))]: the request, or the error *)
  http_ReadRequest : Reader (Request + error)
}.

(** ** Package tunnel: addresses and metadata *)

Inductive AddressType := IPv4 | DomainName_ | IPv6.

Record Address := {
  AddressType_ : AddressType;
  DomainName : string;
  IP : bytes;
  Port : N;
  NetworkType : string
}.

(** Functions of the system and of package tunnel that the constructors
    of the servers call. *)
Class SysLib := {
  (** [tunnel.NewAddressFromHostPort(network, host, port)] *)
  tunnel_NewAddressFromHostPort : string -> string -> Z -> Address;
  (** [net.Dial("tcp", addr.String())], by its error *)
  net_Dial : Address -> option error;
  (** [os.OpenFile(name, flags, perm)], by its error *)
  os_OpenFile : string -> option error
}.

(** [type Command byte] *)
Definition Command := byte.

Record Metadata := {
  Command_ : Command;
  Address_ : option Address      (* *Address, nil until read *)
}.

(** [metadata.DomainName], through the embedded [*Address]. *)
Definition Metadata_DomainName (m : Metadata) : string :=
  match Address_ m with
  | Some a => DomainName a
  | None => ""
  end.

(** Modelled from the spec: the commands of the request header (the
    constants of package trojan are not among the sources):
    CONNECT = 1, ASSOCIATE = 3, MUX = 0x7f. *)
Definition Connect : Command := x01.
Definition Associate : Command := x03.
Definition Mux : Command := x7f.

(** The big-endian 16-bit port. *)
Definition port_of (hi lo : byte) : N := (Byte.to_N hi * 256 + Byte.to_N lo)%N.

(** Reading [want] bytes of the header, then going on with them. *)
Definition with_bytes {A : Type} (want : nat) (r : RewindConn)
    (fail : error -> RewindConn -> A) (k : bytes -> RewindConn -> A) : A :=
  let '((d, err), r') := ReadFull want r in
  match err with
  | Some e => fail e r'
  | None => k d r'
  end.

(** Modelled from the spec: [Address.ReadFrom] (tunnel/metadata.go is not
    among the sources): [ATYP:1 | DST.ADDR:var | DST.PORT:2] with
    ATYP 1 = IPv4 (4 bytes), 3 = domain name (1-byte length, then the
    name), 4 = IPv6 (16 bytes); an unknown ATYP or a short read fails. *)
Definition Address_ReadFrom (r : RewindConn) : (option Address * option error) * RewindConn :=
  let fail := fun e r' => ((None, Some e), r') in
  let finish := fun (t : AddressType) (name : string) (ip : bytes) r' =>
    with_bytes 2 r' fail (fun p r'' =>
      match p with
      | [hi; lo] =>
          ((Some {| AddressType_ := t; DomainName := name; IP := ip;
                    Port := port_of hi lo; NetworkType := "tcp" |}, None), r'')
      | _ => ((None, Some io_ErrUnexpectedEOF), r'')
      end) in
  with_bytes 1 r fail (fun a r1 =>
    match a with
    | [atyp] =>
        if Byte.eqb atyp x01 then
          with_bytes 4 r1 fail (fun ip r2 => finish IPv4 "" ip r2)
        else if Byte.eqb atyp x03 then
          with_bytes 1 r1 fail (fun l r2 =>
            match l with
            | [len] =>
                with_bytes (N.to_nat (Byte.to_N len)) r2 fail (fun name r3 =>
                  finish DomainName_ (string_of_list_byte name) [] r3)
            | _ => ((None, Some io_ErrUnexpectedEOF), r2)
            end)
        else if Byte.eqb atyp x04 then
          with_bytes 16 r1 fail (fun ip r2 => finish IPv6 "" ip r2)
        else ((None, Some (common_Error (NewError "unknown address type"))), r1)
    | _ => ((None, Some io_ErrUnexpectedEOF), r1)
    end).

(** Modelled from the spec: [Metadata.ReadFrom]: the request header
    [CMD:1 | ATYP:1 | DST.ADDR:var | DST.PORT:2], filling the metadata as
    it reads. *)
Definition Metadata_ReadFrom (m : Metadata) (r : RewindConn)
  : (Metadata * option error) * RewindConn :=
  with_bytes 1 r (fun e r' => ((m, Some e), r')) (fun c r1 =>
    match c with
    | [cmd] =>
        let '((a, err), r2) := Address_ReadFrom r1 in
        (({| Command_ := cmd; Address_ := a |},
          match err with
          | Some e => Some (common_Error (Base (NewError "failed to marshal address") (Some e)))
          | None => None
          end), r2)
    | _ => ((m, Some io_ErrUnexpectedEOF), r1)
    end).

(** ** Package statistic: users and the authenticator *)

Module statistic.

Record User := {
  hash : string;
  sent : N;
  recv : N;
  ip_set : gset string;
  ip_limit : nat                (* 0: no limit *)
}.

Definition with_ip_set (u : User) (s : gset string) : User :=
  {| hash := hash u; sent := sent u; recv := recv u; ip_set := s;
     ip_limit := ip_limit u |}.

(** Modelled from the spec: [User.AddIP] (package statistic is not among
    the sources): the IP joins the set unless that would pass
    [ip_limit] (0 means unlimited); [false] when the limit is reached. *)
Definition AddIP (ip : string) (u : User) : bool * User :=
  if decide (ip ∈ ip_set u) then (true, u)
  else if (ip_limit u =? 0)%nat || (size (ip_set u) <? ip_limit u)%nat
       then (true, with_ip_set u ({[ ip ]} ∪ ip_set u))
       else (false, u).

(** Modelled from the spec: [User.DelIP] takes the IP out of the set. *)
Definition DelIP (ip : string) (u : User) : User :=
  with_ip_set u (ip_set u ∖ {[ ip ]}).

(** Modelled from the spec: [User.AddTraffic(sent, recv)]. *)
Definition AddTraffic (s r : N) (u : User) : User :=
  {| hash := hash u; sent := (sent u + s)%N; recv := (recv u + r)%N;
     ip_set := ip_set u; ip_limit := ip_limit u |}.

(** Modelled from the spec: [Authenticator.AuthUser(hash)]: the users
    are a set keyed by hash; a hash is valid when a user has it. *)
Definition AuthUser (h : string) (users : gmap string User) : option User :=
  users !! h.

End statistic.

(** ** Package redirector and the log *)

(** A connection as the redirector gets it: the lower layer's or a
    rewind wrapper. *)
Inductive AnyConn :=
  | OfConn (c : Conn)
  | OfRewind (r : RewindConn).

(** [redirector.Redirection] *)
Record Redirection := {
  InboundConn_ : AnyConn;
  RedirectTo : option Address    (* net.Addr, possibly nil *)
}.

(** Modelled from the spec: [Redirector.Redirect] (package redirector is
    not among the sources): it dials [RedirectTo] and splices the two
    connections; what it copies to the dialled origin is what reading the
    inbound connection to its end yields.  When the dial fails the
    inbound connection is closed and the origin gets nothing. *)
Definition Redirect_forwards (dial : Address -> bool) (r : Redirection) : option bytes :=
  match RedirectTo r with
  | Some a =>
      if dial a then
        match InboundConn_ r with
        | OfRewind rc => fst (Copy_from rc)
        | OfConn c => fst (Copy_from (NewRewindConn c))
        end
      else None
  | None => None
  end.

Inductive LogLevel := LTrace | LDebug | LInfo | LWarn | LError | LFatal.

(** What a handler does that outlives it. *)
Inductive Event :=
  | EvLog (level : LogLevel) (msg : string)
  | EvRedirect (r : Redirection)          (* s.redir.Redirect(...) *)
  | EvClose (c : RewindConn)              (* the connection is closed *)
  | EvServeHTTP (c : RewindConn).         (* go wsServer.ServeHTTP(...) *)

(** What the lower layer's [AcceptConn] returned, and whether the
    server's context was done by then. *)
Inductive Accepted :=
  | AcceptOk (conn : Conn)
  | AcceptErr (err : error) (ctxDone : bool).

(** A [select] between a receive from a channel and [<-ctx.Done()]:
    [pick_done] is the case taken when both are ready. *)
Inductive Received (A : Type) :=
  | Got (a : A)
  | CtxDone
  | Blocks.
Arguments Got {A} a.
Arguments CtxDone {A}.
Arguments Blocks {A}.

Definition select_recv {A : Type} (ch : list A) (done pick_done : bool)
  : Received A * list A :=
  match ch with
  | a :: rest => if done && pick_done then (CtxDone, ch) else (Got a, rest)
  | [] => if done then (CtxDone, []) else (Blocks, [])
  end.

(** The overlay a server is asked a connection for. *)
Inductive Tunnel :=
  | TrojanTunnel | WebsocketTunnel | MuxTunnel | TLSTunnel | TransportTunnel
  | OtherTunnel (name : string).

(** ** Package trojan: the trojan server *)

Module trojan.

Import statistic.

Record InboundConn := {
  sent : N;
  recv : N;
  Conn_ : RewindConn;          (* the embedded net.Conn *)
  user : option string;        (* statistic.User, by its key in the authenticator *)
  hash : string;
  metadata : option Metadata;
  ip : string
}.

Record PacketConn := { PacketConn_Conn : InboundConn }.

Definition with_Conn (c : InboundConn) (r : RewindConn) : InboundConn :=
  {| sent := sent c; recv := recv c; Conn_ := r; user := user c;
     hash := hash c; metadata := metadata c; ip := ip c |}.

Definition with_user (c : InboundConn) (h : string) : InboundConn :=
  {| sent := sent c; recv := recv c; Conn_ := Conn_ c; user := Some h;
     hash := h; metadata := metadata c; ip := ip c |}.

Definition with_ip (c : InboundConn) (i : string) : InboundConn :=
  {| sent := sent c; recv := recv c; Conn_ := Conn_ c; user := user c;
     hash := hash c; metadata := metadata c; ip := i |}.

Definition with_metadata (c : InboundConn) (m : Metadata) : InboundConn :=
  {| sent := sent c; recv := recv c; Conn_ := Conn_ c; user := user c;
     hash := hash c; metadata := Some m; ip := ip c |}.

(** [func (c *InboundConn) Close() error]: the user's [DelIP], then the
    connection's [Close]. *)
Definition Close (c : InboundConn) (users : gmap string User)
  : InboundConn * gmap string User :=
  (with_Conn c (Rewind.Close (Conn_ c)),
   match user c with
   | Some h => alter (DelIP (ip c)) h users
   | None => users
   end).

(** [func (c *InboundConn) Auth() error] *)
Definition Auth `{GoLib} (c : InboundConn) (users : gmap string User)
  : option error * InboundConn * gmap string User :=
  let '((userHash, err), r) := Rewind.Read 56 (Conn_ c) in
  let c := with_Conn c r in
  if bool_decide (err <> None) || negb (length userHash =? 56)%nat then
    (Some (common_Error (Base (NewError "failed to read hash") err)), c, users)
  else
    let h := string_of_list_byte userHash in
    match AuthUser h users with
    | None => (Some (common_Error (NewError ("invalid hash:" +:+ h))), c, users)
    | Some u =>
        let c := with_user c h in
        let addr := Rewind.RemoteAddr (Conn_ c) in
        let '((ip, _), err) := net_SplitHostPort addr in
        match err with
        | Some e =>
            (Some (common_Error
                     (Base (NewError ("failed to parse host:" +:+ addr)) (Some e))),
             c, users)
        | None =>
            let c := with_ip c ip in
            let '(ok, u') := AddIP ip u in
            let users := <[ h := u' ]> users in
            if negb ok then
              (Some (common_Error (NewError "ip limit reached")), c, users)
            else
              let '((_, err), r) := ReadFull 2 (Conn_ c) in
              let c := with_Conn c r in
              match err with
              | Some e => (Some e, c, users)
              | None =>
                  let '((m, err), r) :=
                    Metadata_ReadFrom {| Command_ := x00; Address_ := None |} (Conn_ c) in
                  let c := with_Conn (with_metadata c m) r in
                  match err with
                  | Some e => (Some e, c, users)
                  | None =>
                      let '((_, err), r) := ReadFull 2 (Conn_ c) in
                      let c := with_Conn c r in
                      match err with
                      | Some e => (Some e, c, users)
                      | None => (None, c, users)
                      end
                  end
              end
        end
    end.

Record Server := {
  auth : gmap string User;
  redirAddr : Address;
  connChan : list InboundConn;
  muxChan : list InboundConn;
  packetChan : list PacketConn
}.

Definition with_auth (s : Server) (users : gmap string User) : Server :=
  {| auth := users; redirAddr := redirAddr s; connChan := connChan s;
     muxChan := muxChan s; packetChan := packetChan s |}.

(** [s.connChan <- c] and its like; a send waits for room in the
    channel and then the connection is in it. *)
Definition send_connChan (s : Server) (c : InboundConn) : Server :=
  {| auth := auth s; redirAddr := redirAddr s; connChan := connChan s ++ [c];
     muxChan := muxChan s; packetChan := packetChan s |}.

Definition send_muxChan (s : Server) (c : InboundConn) : Server :=
  {| auth := auth s; redirAddr := redirAddr s; connChan := connChan s;
     muxChan := muxChan s ++ [c]; packetChan := packetChan s |}.

Definition send_packetChan (s : Server) (c : PacketConn) : Server :=
  {| auth := auth s; redirAddr := redirAddr s; connChan := connChan s;
     muxChan := muxChan s; packetChan := packetChan s ++ [c] |}.

(** The [switch inboundConn.metadata.Command] of [acceptLoop]. *)
Definition dispatch (s : Server) (inboundConn : InboundConn) (m : Metadata)
  : Server * list Event :=
  if Byte.eqb (Command_ m) Connect then
    if String.eqb (Metadata_DomainName m) "MUX_CONN" then
      (send_muxChan s inboundConn, [EvLog LDebug "mux(r) connection"])
    else
      (send_connChan s inboundConn, [EvLog LDebug "normal trojan connection"])
  else if Byte.eqb (Command_ m) Associate then
    (send_packetChan s {| PacketConn_Conn := inboundConn |},
     [EvLog LDebug "trojan udp connection"])
  else if Byte.eqb (Command_ m) Mux then
    (send_muxChan s inboundConn, [EvLog LDebug "mux connection"])
  else
    (s, [EvLog LError
           ("unknown trojan command " +:+ pretty (Byte.to_N (Command_ m)))]).

(** [&InboundConn{Conn: rewindConn, auth: s.auth}] *)
Definition newInboundConn (rewindConn : RewindConn) : InboundConn :=
  {| sent := 0; recv := 0; Conn_ := rewindConn; user := None; hash := "";
     metadata := None; ip := "" |}.

(** The goroutine [acceptLoop] starts for an accepted connection. *)
Definition handleConn `{GoLib} (s : Server) (conn : Conn)
  : outcome (Server * list Event) :=
  let rewindConn := SetBufferSize 128 (NewRewindConn conn) in
  let inboundConn := newInboundConn rewindConn in
  let '(err, inboundConn, users) := Auth inboundConn (auth s) in
  let s := with_auth s users in
  let rewindConn := Conn_ inboundConn in
  match err with
  | Some e =>
      let rewindConn := StopBuffering (Rewind rewindConn) in
      Returns
        (s,
         [EvLog LWarn
            (info (Base (NewError ("connection with invalid trojan header from "
                                   +:+ Rewind.RemoteAddr rewindConn)) (Some e)));
          EvRedirect {| RedirectTo := Some (redirAddr s);
                        InboundConn_ := OfRewind rewindConn |}])
  | None =>
      let inboundConn := with_Conn inboundConn (StopBuffering rewindConn) in
      match metadata inboundConn with
      | Some m => Returns (dispatch s inboundConn m)
      | None => Panics "invalid memory address or nil pointer dereference"
      end
  end.

(** [func (s *Server) acceptLoop()], over what the lower layer's
    [AcceptConn] returns in turn; the goroutines are run in the order
    they are started. *)
Fixpoint acceptLoop `{GoLib} (s : Server) (accepts : list Accepted)
  : outcome (Server * list Event) :=
  match accepts with
  | [] => Waits
  | AcceptErr err done :: rest =>
      let ev := EvLog LError
        (info (Base (NewError "trojan failed to accept conn") (Some err))) in
      if done then Returns (s, [ev])
      else
        match acceptLoop s rest with
        | Returns (s', evs) => Returns (s', ev :: evs)
        | Panics msg => Panics msg
        | Waits => Waits
        end
  | AcceptOk conn :: rest =>
      match handleConn s conn with
      | Returns (s1, evs1) =>
          match acceptLoop s1 rest with
          | Returns (s2, evs2) => Returns (s2, evs1 ++ evs2)
          | Panics msg => Panics msg
          | Waits => Waits
          end
      | Panics msg => Panics msg
      | Waits => Waits
      end
  end.

(** [func (s *Server) AcceptPacket(tunnel.Tunnel) (tunnel.PacketConn, error)] *)
Definition AcceptPacket (s : Server) (done pick_done : bool)
  : outcome (option PacketConn * option error) * Server :=
  match select_recv (packetChan s) done pick_done with
  | (Got t, rest) =>
      (Returns (Some t, None),
       {| auth := auth s; redirAddr := redirAddr s; connChan := connChan s;
          muxChan := muxChan s; packetChan := rest |})
  | (CtxDone, _) =>
      (Returns (None, Some (common_Error (NewError "trojan client closed"))), s)
  | (Blocks, _) => (Waits, s)
  end.

Definition with_sent (c : InboundConn) (n : N) : InboundConn :=
  {| sent := n; recv := recv c; Conn_ := Conn_ c; user := user c;
     hash := hash c; metadata := metadata c; ip := ip c |}.

Definition with_recv (c : InboundConn) (n : N) : InboundConn :=
  {| sent := sent c; recv := n; Conn_ := Conn_ c; user := user c;
     hash := hash c; metadata := metadata c; ip := ip c |}.

(** [atomic.AddUint64(&x, uint64(n))] *)
Definition AddUint64 (x : N) (n : nat) : N := ((x + N.of_nat n) mod 2 ^ 64)%N.

(** [func (c *InboundConn) Write(p []byte) (int, error)]; the call of
    [AddTraffic] on a connection without user is a nil dereference. *)
Definition Write (p : bytes) (c : InboundConn) (users : gmap string User)
  : outcome ((nat * option error) * InboundConn * gmap string User) :=
  let r := Rewind.Write p (Conn_ c) in
  let n := length p in
  let c := with_sent (with_Conn c r) (AddUint64 (sent c) n) in
  match user c with
  | Some h => Returns ((n, None), c, alter (AddTraffic (N.of_nat n) 0) h users)
  | None => Panics "invalid memory address or nil pointer dereference"
  end.

(** [func (c *InboundConn) Read(p []byte) (int, error)] with
    [len(p) = size]; the bytes read stand for [p[:n]]. *)
Definition Read (size : nat) (c : InboundConn) (users : gmap string User)
  : outcome ((bytes * option error) * InboundConn * gmap string User) :=
  let '((d, err), r) := Rewind.Read size (Conn_ c) in
  let n := length d in
  let c := with_recv (with_Conn c r) (AddUint64 (recv c) n) in
  match user c with
  | Some h => Returns ((d, err), c, alter (AddTraffic 0 (N.of_nat n)) h users)
  | None => Panics "invalid memory address or nil pointer dereference"
  end.

(** [func (s *Server) AcceptConn(nextTunnel tunnel.Tunnel) (tunnel.Conn, error)] *)
Definition AcceptConn (s : Server) (nextTunnel : option Tunnel) (done pick_done : bool)
  : outcome (option InboundConn * option error) * Server :=
  match nextTunnel with
  | Some MuxTunnel =>
      match select_recv (muxChan s) done pick_done with
      | (Got t, rest) =>
          (Returns (Some t, None),
           {| auth := auth s; redirAddr := redirAddr s; connChan := connChan s;
              muxChan := rest; packetChan := packetChan s |})
      | (CtxDone, _) =>
          (Returns (None, Some (common_Error (NewError "trojan client closed"))), s)
      | (Blocks, _) => (Waits, s)
      end
  | _ =>
      match select_recv (connChan s) done pick_done with
      | (Got t, rest) =>
          (Returns (Some t, None),
           {| auth := auth s; redirAddr := redirAddr s; connChan := rest;
              muxChan := muxChan s; packetChan := packetChan s |})
      | (CtxDone, _) =>
          (Returns (None, Some (common_Error (NewError "trojan client closed"))), s)
      | (Blocks, _) => (Waits, s)
      end
  end.

(** What a user of the connection does with it, as the relay of the
    proxy does: reads into a buffer of some size, and writes. *)
Inductive Op :=
  | IORead (size : nat)
  | IOWrite (p : bytes).

Fixpoint relay (ops : list Op) (c : InboundConn) (users : gmap string User)
    (got : bytes) : outcome (bytes * InboundConn * gmap string User) :=
  match ops with
  | [] => Returns (got, c, users)
  | IORead size :: ops' =>
      match Read size c users with
      | Returns ((d, _), c', users') => relay ops' c' users' (got ++ d)
      | Panics msg => Panics msg
      | Waits => Waits
      end
  | IOWrite p :: ops' =>
      match Write p c users with
      | Returns (_, c', users') => relay ops' c' users' got
      | Panics msg => Panics msg
      | Waits => Waits
      end
  end.

(** The bytes the writes of [ops] carry. *)
Fixpoint written (ops : list Op) : bytes :=
  match ops with
  | [] => []
  | IORead _ :: ops' => written ops'
  | IOWrite p :: ops' => p ++ written ops'
  end.

(** A connection as [Auth] leaves it when it succeeds and the handler
    has stopped the buffering: it has its user and its metadata. *)
Definition authenticated (c : InboundConn) (m : Metadata) : Prop :=
  metadata c = Some m /\ user c = Some (hash c) /\ buffering (Conn_ c) = false.

(** Every channel holds the connections of its commands only. *)
Definition channels_sorted (s : Server) : Prop :=
  Forall (fun c => exists m, authenticated c m
                   /\ Command_ m = Connect /\ Metadata_DomainName m <> "MUX_CONN")
         (connChan s)
  /\ Forall (fun c => exists m, authenticated c m
                      /\ (Command_ m = Mux
                          \/ (Command_ m = Connect /\ Metadata_DomainName m = "MUX_CONN")))
            (muxChan s)
  /\ Forall (fun p => exists m, authenticated (PacketConn_Conn p) m
                      /\ Command_ m = Associate)
            (packetChan s).

End trojan.

(** ** Package tls: the TLS server (tunnel/tls/server.go) *)

Module tls.

(** [pem.Block], [x509.Certificate] and [tls.Certificate], by the
    fields [loadKeyPair] touches. *)
Record PEMBlock := { Block_Bytes : bytes }.

Record X509Certificate := { CommonName : string; DNSNames : list string }.

Record Certificate := {
  Certificate_ : list bytes;         (* the chain, leaf first *)
  PrivateKey : bytes;
  Leaf : option X509Certificate
}.

(** The files and the crypto libraries [loadKeyPair] calls, each with
    Go's pair of a value and an error. *)
Class KeyLib := {
  ioutil_ReadFile : string -> bytes * option error;
  pem_Decode : bytes -> option PEMBlock;
  x509_DecryptPEMBlock : PEMBlock -> bytes -> bytes * option error;
  tls_X509KeyPair : bytes -> bytes -> Certificate * option error;
  x509_ParseCertificate : bytes -> option X509Certificate * option error;
  tls_LoadX509KeyPair : string -> string -> Certificate * option error
}.

(** [keyPair.Leaf, err = x509.ParseCertificate(keyPair.Certificate[0])]
    and the return that follows it. *)
Definition parse_leaf `{KeyLib} (keyPair : Certificate)
  : outcome (option Certificate * option error) :=
  match Certificate_ keyPair with
  | [] => Panics "index out of range [0] with length 0"
  | der :: _ =>
      let '(leaf, err) := x509_ParseCertificate der in
      match err with
      | Some e =>
          Returns (None, Some (common_Error
            (Base (NewError "failed to parse leaf certificate") (Some e))))
      | None =>
          Returns (Some {| Certificate_ := Certificate_ keyPair;
                           PrivateKey := PrivateKey keyPair; Leaf := leaf |}, None)
      end
  end.

(** [func loadKeyPair(keyPath string, certPath string, password string)],
    returning the certificate and the error. *)
Definition loadKeyPair `{KeyLib} (keyPath certPath password : string)
  : outcome (option Certificate * option error) :=
  if negb (String.eqb password "") then
    let '(keyFile, err) := ioutil_ReadFile keyPath in
    match err with
    | Some e =>
        Returns (None, Some (common_Error
          (Base (NewError "failed to load key file") (Some e))))
    | None =>
        match pem_Decode keyFile with
        | None =>
            Returns (None, Some (common_Error
              (Base (NewError "failed to decode key file") err)))
        | Some keyBlock =>
            let '(decryptedKey, err) :=
              x509_DecryptPEMBlock keyBlock (list_byte_of_string password) in
            match err with
            | None =>                               (* if err == nil *)
                Returns (None, Some (common_Error
                  (Base (NewError "failed to decrypt key") err)))
            | Some _ =>
                let '(certFile, err) := ioutil_ReadFile certPath in
                match pem_Decode certFile with
                | None =>
                    Returns (None, Some (common_Error
                      (Base (NewError "failed to decode cert file") err)))
                | Some certBlock =>
                    let '(keyPair, err) :=
                      tls_X509KeyPair (Block_Bytes certBlock) decryptedKey in
                    match err with
                    | Some e => Returns (None, Some e)
                    | None => parse_leaf keyPair
                    end
                end
            end
        end
    end
  else
    let '(keyPair, err) := tls_LoadX509KeyPair certPath keyPath in
    match err with
    | Some e =>
        Returns (None, Some (common_Error
          (Base (NewError "failed to load key pair") (Some e))))
    | None => parse_leaf keyPair
    end.

Record Server := {
  fallbackAddress : option Address;     (* *tunnel.Address, possibly nil *)
  httpResp : option bytes;              (* []byte, possibly nil *)
  connChan : list RewindConn;           (* chan tunnel.Conn, to trojan *)
  wsChan : list RewindConn;             (* chan tunnel.Conn, to websocket *)
  nextHTTP : Z                          (* int32 *)
}.

Definition send_connChan (s : Server) (c : RewindConn) : Server :=
  {| fallbackAddress := fallbackAddress s; httpResp := httpResp s;
     connChan := connChan s ++ [c]; wsChan := wsChan s; nextHTTP := nextHTTP s |}.

Definition send_wsChan (s : Server) (c : RewindConn) : Server :=
  {| fallbackAddress := fallbackAddress s; httpResp := httpResp s;
     connChan := connChan s; wsChan := wsChan s ++ [c]; nextHTTP := nextHTTP s |}.

(** What crypto/tls does with one connection: the handshake, as a
    reader of the connection returning its error, and the chunks the
    established [tls.Conn] delivers to its reader. *)
Record Session := {
  Handshake : Reader (option error);
  plaintext : list bytes
}.

Definition not_tls : string := "first record does not look like a TLS handshake".

(** The established [tls.Conn], as its reader sees it. *)
Definition tlsConn (conn : Conn) (session : Session) : Conn :=
  {| incoming := plaintext session; outgoing := []; closed := false;
     remoteAddr := remoteAddr conn |}.

(** The goroutine [acceptLoop] starts for an accepted connection. *)
Definition handleConn `{GoLib} (s : Server) (conn : Conn) (session : Session)
  : Server * list Event :=
  let handshakeRewindConn := SetBufferSize 2048 (NewRewindConn conn) in
  let '(err, handshakeRewindConn) :=
    run_Reader (Handshake session) handshakeRewindConn in
  let handshakeRewindConn := StopBuffering handshakeRewindConn in
  match err with
  | Some e =>
      if Contains (error_Error e) not_tls then
        let handshakeRewindConn := Rewind handshakeRewindConn in
        let log := EvLog LError
          (info (Base (NewError ("failed to perform tls handshake with "
                                 +:+ remoteAddr conn +:+ ", redirecting")) (Some e))) in
        match fallbackAddress s with
        | Some a =>
            (s, [log; EvRedirect {| InboundConn_ := OfRewind handshakeRewindConn;
                                    RedirectTo := Some a |}])
        | None =>
            match httpResp s with
            | Some resp =>
                (s, [log; EvClose (Rewind.Close (Rewind.Write resp handshakeRewindConn))])
            | None => (s, [log; EvClose (Rewind.Close handshakeRewindConn)])
            end
        end
      else
        (s, [EvClose (Rewind.Close handshakeRewindConn);
             EvLog LError (info (Base (NewError "tls handshake failed") (Some e)))])
  | None =>
      let rewindConn := SetBufferSize 1024 (NewRewindConn (tlsConn conn session)) in
      let '(httpReq, rewindConn) := run_Reader http_ReadRequest rewindConn in
      let rewindConn := StopBuffering (Rewind rewindConn) in
      let logs := [EvLog LInfo ("tls connection from " +:+ remoteAddr conn);
                   EvLog LTrace "tls handshake"] in
      match httpReq with
      | inr _ => (send_connChan s rewindConn, logs)
      | inl _ =>
          if negb (nextHTTP s =? 1)%Z then
            (s, logs ++
                [EvLog LError "incoming http request, but no websocket server is listening";
                 EvRedirect {| InboundConn_ := OfRewind rewindConn;
                               RedirectTo := fallbackAddress s |}])
          else
            (send_wsChan s rewindConn, logs ++ [EvLog LDebug "http req: "])
      end
  end.

(** [func (s *Server) acceptLoop()], over what the lower layer's
    [AcceptConn] returns in turn; [sessions] is what crypto/tls does
    with each connection.  An accept error ends the loop, after
    [log.Fatal] unless the context is done. *)
Fixpoint acceptLoop `{GoLib} (sessions : Conn -> Session) (s : Server)
    (accepts : list Accepted) : outcome (Server * list Event) :=
  match accepts with
  | [] => Waits
  | AcceptErr err done :: _ =>
      if done then Returns (s, [])
      else Returns (s, [EvLog LFatal ("transport accept error" +:+ error_Error err)])
  | AcceptOk conn :: rest =>
      let '(s1, evs1) := handleConn s conn (sessions conn) in
      match acceptLoop sessions s1 rest with
      | Returns (s2, evs2) => Returns (s2, evs1 ++ evs2)
      | Panics msg => Panics msg
      | Waits => Waits
      end
  end.

(** [func (s *Server) AcceptConn(overlay tunnel.Tunnel) (tunnel.Conn, error)] *)
Definition AcceptConn (s : Server) (overlay : option Tunnel) (done pick_done : bool)
  : outcome (option RewindConn * option error) * Server :=
  match overlay with
  | Some WebsocketTunnel =>
      let s1 := {| fallbackAddress := fallbackAddress s; httpResp := httpResp s;
                   connChan := connChan s; wsChan := wsChan s; nextHTTP := 1 |} in
      match select_recv (wsChan s1) done pick_done with
      | (Got conn, rest) =>
          (Returns (Some conn, None),
           {| fallbackAddress := fallbackAddress s1; httpResp := httpResp s1;
              connChan := connChan s1; wsChan := rest; nextHTTP := nextHTTP s1 |})
      | (CtxDone, _) =>
          (Returns (None, Some (common_Error (NewError "transport server closed"))), s1)
      | (Blocks, _) => (Waits, s1)
      end
  | _ =>
      match select_recv (connChan s) done pick_done with
      | (Got conn, rest) =>
          (Returns (Some conn, None),
           {| fallbackAddress := fallbackAddress s; httpResp := httpResp s;
              connChan := rest; wsChan := wsChan s; nextHTTP := nextHTTP s |})
      | (CtxDone, _) =>
          (Returns (None, Some (common_Error (NewError "transport server closed"))), s)
      | (Blocks, _) => (Waits, s)
      end
  end.

(** [func (s *Server) AcceptPacket(tunnel.Tunnel) (tunnel.PacketConn, error)] *)
Definition AcceptPacket (s : Server) (overlay : option Tunnel)
  : outcome (option trojan.PacketConn * option error) :=
  Panics "not supported".

(** The fields of [Server] that [GetCertificate] reads. *)
Record SNIPolicy := {
  verifySNI : bool;
  sni : string;
  keyPair : list Certificate
}.

(** The [GetCertificate] callback of [acceptLoop], on
    [hello.ServerName]. *)
Definition GetCertificate (s : SNIPolicy) (ServerName : string)
  : outcome (option Certificate * option error) :=
  match keyPair s with
  | [] => Panics "index out of range [0] with length 0"
  | kp :: _ =>
      match Leaf kp with
      | None => Panics "invalid memory address or nil pointer dereference"
      | Some leaf =>
          let sni0 := CommonName leaf in
          let dnsNames := DNSNames leaf in
          let sni0 := if negb (String.eqb (sni s) "") then sni s else sni0 in
          let matched := isDomainNameMatched sni0 ServerName in
          let matched :=
            matched || existsb (fun name => isDomainNameMatched name ServerName) dnsNames in
          if verifySNI s && negb matched then
            Returns (None, Some (common_Error (NewError
              ("sni mismatched: " +:+ ServerName +:+ ", expected: " +:+ sni s))))
          else Returns (Some kp, None)
      end
  end.

(** [bytes.Equal] *)
Fixpoint bytes_Equal (a b : bytes) : bool :=
  match a, b with
  | [], [] => true
  | x :: a', y :: b' => Byte.eqb x y && bytes_Equal a' b'
  | _, _ => false
  end.

(** What [checkKeyPairLoop] keeps between its rounds: the key pair
    slot of the server and the bytes of the files last loaded. *)
Record KeyPairState := {
  slot : list Certificate;
  lastKeyBytes : bytes;
  lastCertBytes : bytes
}.

(** How a round of the loop ends: at [continue], the next round
    starting at once, or at the [select] on the ticker and the context. *)
Inductive RoundEnd := AtContinue | AtSelect.

(** One round of the [for] of [checkKeyPairLoop], up to its [select]. *)
Definition checkKeyPair_round `{KeyLib} (keyPath certPath password : string)
    (st : KeyPairState) : outcome (KeyPairState * list Event * RoundEnd) :=
  let checking := EvLog LDebug "checking cert..." in
  let '(keyBytes, err) := ioutil_ReadFile keyPath in
  match err with
  | Some e =>
      Returns (st, [checking;
                    EvLog LError (info (Base (NewError "tls failed to check key") (Some e)))],
               AtContinue)
  | None =>
      let '(certBytes, err) := ioutil_ReadFile certPath in
      match err with
      | Some e =>
          Returns (st, [checking;
                        EvLog LError
                          (info (Base (NewError "tls failed to check cert") (Some e)))],
                   AtContinue)
      | None =>
          if negb (bytes_Equal keyBytes (lastKeyBytes st))
             || negb (bytes_Equal (lastCertBytes st) certBytes) then
            let detected := EvLog LInfo "new key pair detected" in
            match loadKeyPair keyPath certPath password with
            | Panics msg => Panics msg
            | Waits => Waits
            | Returns (_, Some e) =>
                Returns (st, [checking; detected;
                              EvLog LError
                                (info (Base (NewError "tls failed to load new key pair")
                                            (Some e)))],
                         AtContinue)
            | Returns (None, None) =>
                Panics "invalid memory address or nil pointer dereference"
            | Returns (Some kp, None) =>
                Returns ({| slot := [kp]; lastKeyBytes := keyBytes;
                            lastCertBytes := certBytes |},
                         [checking; detected], AtSelect)
            end
          else Returns (st, [checking], AtSelect)
      end
  end.

(** Where [checkKeyPairLoop] is after the rounds looked at: returned,
    still going round, or waiting in its [select]. *)
Inductive LoopEnd := Exited | GoingRound | InSelect.

(** [func (s *Server) checkKeyPairLoop(...)], for [rounds] rounds at
    most, the files staying as they are; [selects] tells for each
    [select] reached whether the ticker fires ([true]) or the context
    is done ([false]). *)
Fixpoint checkKeyPairLoop `{KeyLib} (rounds : nat) (selects : list bool)
    (keyPath certPath password : string) (st : KeyPairState)
  : outcome (KeyPairState * list Event * LoopEnd) :=
  match rounds with
  | 0 => Returns (st, [], GoingRound)
  | S rounds' =>
      match checkKeyPair_round keyPath certPath password st with
      | Panics msg => Panics msg
      | Waits => Waits
      | Returns (st1, evs1, AtContinue) =>
          match checkKeyPairLoop rounds' selects keyPath certPath password st1 with
          | Returns (st2, evs2, e) => Returns (st2, evs1 ++ evs2, e)
          | Panics msg => Panics msg
          | Waits => Waits
          end
      | Returns (st1, evs1, AtSelect) =>
          match selects with
          | [] => Returns (st1, evs1, InSelect)
          | false :: _ => Returns (st1, evs1 ++ [EvLog LDebug "exiting"], Exited)
          | true :: selects' =>
              match checkKeyPairLoop rounds' selects' keyPath certPath password st1 with
              | Returns (st2, evs2, e) => Returns (st2, evs1 ++ evs2, e)
              | Panics msg => Panics msg
              | Waits => Waits
              end
          end
      end
  end.

(** [Config], by the fields [NewServer] reads (its declaration is not
    among the sources). *)
Record TLSConfig := {
  VerifyHostName : bool;
  SNI : string;
  KeyPath : string;
  CertPath : string;
  KeyPassword : string;
  FallbackHost : string;
  FallbackPort : Z;
  HTTPResponseFileName : string;
  KeyLogPath : string;
  CertCheckRate : Z
}.

Record Config := {
  RemoteHost : string;
  TLS : TLSConfig
}.

(** The server [NewServer] builds: the fields of [Server] above, those
    [GetCertificate] reads, and whether the key logger and the key pair
    poller are on. *)
Record Built := {
  server : Server;
  policy : SNIPolicy;
  keyLogging : bool;
  polling : bool
}.

(** The fallback part of [NewServer]: the fallback address and the
    static response, or the error. *)
Definition NewServer_fallback `{KeyLib} `{SysLib} (cfg : Config)
  : ((option Address * option bytes) + Error) * list Event :=
  if negb (FallbackPort (TLS cfg) =? 0)%Z then
    let empty := String.eqb (FallbackHost (TLS cfg)) "" in
    let host := if empty then RemoteHost cfg else FallbackHost (TLS cfg) in
    let logs := if empty then [EvLog LWarn "empty tls fallback address"] else [] in
    let fallbackAddress :=
      tunnel_NewAddressFromHostPort "tcp" host (FallbackPort (TLS cfg)) in
    match net_Dial fallbackAddress with
    | Some e => (inr (Base (NewError "invalid fallback address") (Some e)), logs)
    | None => (inl (Some fallbackAddress, None), logs)
    end
  else
    let logs := [EvLog LWarn "empty tls fallback port"] in
    if negb (String.eqb (HTTPResponseFileName (TLS cfg)) "") then
      let '(httpRespBody, err) := ioutil_ReadFile (HTTPResponseFileName (TLS cfg)) in
      match err with
      | Some e => (inr (Base (NewError "invalid response file") (Some e)), logs)
      | None => (inl (None, Some httpRespBody), logs)
      end
    else (inl (None, None), logs ++ [EvLog LWarn "empty tls http response"]).

(** [func NewServer(ctx context.Context, underlay tunnel.Server)], on
    the configuration [config.FromContext] gives; it returns the server
    and the error. *)
Definition NewServer `{KeyLib} `{SysLib} (cfg : Config)
  : outcome (option Built * option error) * list Event :=
  match NewServer_fallback cfg with
  | (inr e, logs) => (Returns (None, Some (common_Error e)), logs)
  | (inl (fallbackAddress, httpResp), logs) =>
      match loadKeyPair (KeyPath (TLS cfg)) (CertPath (TLS cfg)) (KeyPassword (TLS cfg)) with
      | Panics msg => (Panics msg, logs)
      | Waits => (Waits, logs)
      | Returns (_, Some _) =>
          (Returns (None, Some (common_Error (NewError "tls failed to load key pair"))),
           logs)
      | Returns (keyPair, None) =>
          let logging := negb (String.eqb (KeyLogPath (TLS cfg)) "") in
          let logs := if logging
                      then logs ++ [EvLog LWarn
        "tls key logging activated. USE OF KEY LOGGING COMPROMISES SECURITY. IT SHOULD ONLY BE USED FOR DEBUGGING."]
                      else logs in
          match (if logging then os_OpenFile (KeyLogPath (TLS cfg)) else None) with
          | Some e =>
              (Returns (None, Some (common_Error
                 (Base (NewError "failed to open key log file") (Some e)))), logs)
          | None =>
              match keyPair with
              | None => (Panics "invalid memory address or nil pointer dereference", logs)
              | Some kp =>
                  (Returns
                     (Some {| server := {| fallbackAddress := fallbackAddress;
                                           httpResp := httpResp;
                                           connChan := []; wsChan := [];
                                           nextHTTP := 0 |};
                              policy := {| verifySNI := VerifyHostName (TLS cfg);
                                           sni := SNI (TLS cfg);
                                           keyPair := [kp] |};
                              keyLogging := logging;
                              polling := (0 <? CertCheckRate (TLS cfg))%Z |},
                      None),
                   logs ++ [EvLog LDebug "tls server created"])
              end
          end
      end
  end.

End tls.

(** ** Packages transport and mux: [AcceptPacket] *)

Module transport.

Definition AcceptPacket (overlay : option Tunnel)
  : outcome (option trojan.PacketConn * option error) :=
  Panics "not supported".

Record Server := {
  connChan : list AnyConn;       (* chan tunnel.Conn, to trojan *)
  wsChan : list AnyConn;         (* chan tunnel.Conn, to websocket *)
  nextHTTP : bool
}.

Definition send_connChan (s : Server) (c : AnyConn) : Server :=
  {| connChan := connChan s ++ [c]; wsChan := wsChan s; nextHTTP := nextHTTP s |}.

Definition send_wsChan (s : Server) (c : AnyConn) : Server :=
  {| connChan := connChan s; wsChan := wsChan s ++ [c]; nextHTTP := nextHTTP s |}.

(** The goroutine [acceptLoop] starts for an accepted connection. *)
Definition handleConn `{GoLib} (s : Server) (tcpConn : Conn) : Server * list Event :=
  let log := EvLog LInfo ("tcp connection from " +:+ remoteAddr tcpConn) in
  if nextHTTP s then
    let rewindConn := SetBufferSize 512 (NewRewindConn tcpConn) in
    let '(httpReq, rewindConn) := run_Reader http_ReadRequest rewindConn in
    let rewindConn := StopBuffering (Rewind rewindConn) in
    match httpReq with
    | inr _ => (send_connChan s (OfRewind rewindConn), [log])
    | inl _ =>
        (send_wsChan s (OfRewind rewindConn),
         [log; EvLog LDebug "plaintext http request: "])
    end
  else (send_connChan s (OfConn tcpConn), [log]).

(** [func (s *Server) acceptLoop()], over what [tcpListener.Accept]
    returns in turn: an error ends the loop, logged unless the context
    is done. *)
Fixpoint acceptLoop `{GoLib} (s : Server) (accepts : list Accepted)
  : outcome (Server * list Event) :=
  match accepts with
  | [] => Waits
  | AcceptErr err done :: _ =>
      if done then Returns (s, [])
      else Returns (s, [EvLog LError
                          (info (Base (NewError "transport accept error") (Some err)))])
  | AcceptOk tcpConn :: rest =>
      let '(s1, evs1) := handleConn s tcpConn in
      match acceptLoop s1 rest with
      | Returns (s2, evs2) => Returns (s2, evs1 ++ evs2)
      | Panics msg => Panics msg
      | Waits => Waits
      end
  end.

(** [func (s *Server) AcceptConn(overlay tunnel.Tunnel) (tunnel.Conn, error)],
    the overlay given by its [Name()], [None] for a nil overlay. *)
Definition AcceptConn (s : Server) (overlay : option string) (done pick_done : bool)
  : outcome (option AnyConn * option error) * Server :=
  let http :=
    match overlay with
    | Some name => String.eqb name "WEBSOCKET" || String.eqb name "HTTP"
    | None => false
    end in
  if http then
    let s1 := {| connChan := connChan s; wsChan := wsChan s; nextHTTP := true |} in
    match select_recv (wsChan s1) done pick_done with
    | (Got conn, rest) =>
        (Returns (Some conn, None),
         {| connChan := connChan s1; wsChan := rest; nextHTTP := nextHTTP s1 |})
    | (CtxDone, _) =>
        (Returns (None, Some (common_Error (NewError "transport server closed"))), s1)
    | (Blocks, _) => (Waits, s1)
    end
  else
    match select_recv (connChan s) done pick_done with
    | (Got conn, rest) =>
        (Returns (Some conn, None),
         {| connChan := rest; wsChan := wsChan s; nextHTTP := nextHTTP s |})
    | (CtxDone, _) =>
        (Returns (None, Some (common_Error (NewError "transport server closed"))), s)
    | (Blocks, _) => (Waits, s)
    end.

End transport.

Module mux.

Definition AcceptPacket (overlay : option Tunnel)
  : outcome (option trojan.PacketConn * option error) :=
  Panics "not supported".

End mux.

(** ** Package websocket: the websocket server *)

Module websocket.

Record Server := {
  hostname : string;
  path : string;
  enabled : bool;
  redirAddr : Address
}.

(** [websocket.InboundConn]: the connection and the websocket on it. *)
Record InboundConn := {
  tcpConn : Conn;
  wsConn : RewindConn
}.

(** What golang.org/x/net/websocket does: [NewConfig]'s error, and
    whether [ServeHTTP] reaches the handler before the server's
    timeout. *)
Record Upgrade := {
  NewConfig : string -> string -> option error;
  handshake_in_time : RewindConn -> Request -> bool
}.

(** [func (s *Server) AcceptConn(tunnel.Tunnel) (tunnel.Conn, error)],
    on what the lower layer's [AcceptConn] returned. *)
Definition AcceptConn `{GoLib} (s : Server) (up : Upgrade) (accepted : Conn + error)
  : (option InboundConn * option error) * list Event :=
  match accepted with
  | inr _ =>
      ((None, Some (common_Error (NewError
          "websocket failed to accept connection from underlying server"))), [])
  | inl conn =>
      if negb (enabled s) then
        ((None, Some (common_Error (NewError
            ("websocket is disabled. redirecting http request from "
             +:+ remoteAddr conn)))),
         [EvRedirect {| InboundConn_ := OfConn conn;
                        RedirectTo := Some (redirAddr s) |}])
      else
        let rewindConn := SetBufferSize 512 (NewRewindConn conn) in
        let '(req, rewindConn) := run_Reader http_ReadRequest rewindConn in
        match req with
        | inr e =>
            let rewindConn := StopBuffering (Rewind rewindConn) in
            ((None, Some (common_Error (Base (NewError
                ("not a valid http request: " +:+ remoteAddr conn)) (Some e)))),
             [EvLog LDebug "invalid http request";
              EvRedirect {| InboundConn_ := OfRewind rewindConn;
                            RedirectTo := Some (redirAddr s) |}])
        | inl req =>
            if negb (String.eqb (strings_ToLower (Header_Upgrade req)) "websocket")
               || negb (String.eqb (URL_Path req) (path s)) then
              let rewindConn := StopBuffering (Rewind rewindConn) in
              ((None, Some (common_Error (Base (NewError
                  ("not a valid websocket handshake request: "
                   +:+ remoteAddr conn)) None))),
               [EvLog LDebug "invalid http websocket handshake request";
                EvRedirect {| InboundConn_ := OfRewind rewindConn;
                              RedirectTo := Some (redirAddr s) |}])
            else
              let url := "wss://" +:+ hostname s +:+ path s in
              let origin := "https://" +:+ hostname s in
              match NewConfig up url origin with
              | Some e =>
                  ((None, Some (common_Error (Base (NewError
                      "failed to create websocket config") (Some e)))), [])
              | None =>
                  let serve := EvServeHTTP rewindConn in
                  if handshake_in_time up rewindConn req then
                    ((Some {| tcpConn := conn;
                              wsConn := StopBuffering rewindConn |}, None),
                     [serve; EvLog LDebug "websocket obtained"])
                  else
                    ((None, Some (common_Error (NewError
                        "websocket failed to handshake"))), [serve])
              end
        end
  end.

(** [func (s *Server) AcceptPacket(tunnel.Tunnel) (tunnel.PacketConn, error)] *)
Definition AcceptPacket (s : Server) (overlay : option Tunnel)
  : outcome (option trojan.PacketConn * option error) :=
  Returns (None, Some (common_Error (NewError "not supported"))).

(** [Config], by the fields [NewServer] reads (its declaration is not
    among the sources). *)
Record WebsocketConfig := {
  Enabled : bool;
  Host : string;
  Path : string
}.

Record Config := {
  RemoteHost : string;
  RemotePort : Z;
  Websocket : WebsocketConfig
}.

(** The double quote. *)
Definition quote : string := String (ascii_of_nat 34) EmptyString.

(** [time.Second], in nanoseconds. *)
Definition Second : Z := 1000000000.

(** [func NewServer(ctx context.Context, underlay tunnel.Server)], on
    the configuration [config.FromContext] gives and on what
    [rand.Intn(10)] returns; it returns the server, with its handshake
    timeout, and the error. *)
Definition NewServer `{SysLib} (cfg : Config) (rand_Intn_10 : Z)
  : (option (Server * Z) * option error) * list Event :=
  if Enabled (Websocket cfg) && negb (HasPrefix (Path (Websocket cfg)) "/") then
    ((None, Some (common_Error (NewError
        ("websocket path must start with " +:+ quote +:+ "/" +:+ quote)))), [])
  else
    let noHost := String.eqb (RemoteHost cfg) "" in
    let host := if noHost then Host (Websocket cfg) else RemoteHost cfg in
    let noPort := (RemotePort cfg =? 0)%Z in
    let port := if noPort then 80%Z else RemotePort cfg in
    let logs :=
      (if noHost then [EvLog LWarn "empty websocket redirection hostname"] else [])
      ++ (if noPort then [EvLog LWarn "empty websocket redirection port"] else [])
      ++ [EvLog LDebug "websocket server created"] in
    ((Some ({| enabled := Enabled (Websocket cfg);
               hostname := Host (Websocket cfg);
               path := Path (Websocket cfg);
               redirAddr := tunnel_NewAddressFromHostPort "tcp" host port |},
            (Second * (rand_Intn_10 + 5))%Z), None), logs).

End websocket.

(** ** The request header on the wire

    [CMD:1 | ATYP:1 | DST.ADDR:var | DST.PORT:2], by the fields it is
    made of. *)

Inductive WireAddr :=
  | WireIPv4 (ip : bytes)
  | WireDomain (len : byte) (name : bytes)
  | WireIPv6 (ip : bytes).


Definition wire_bytes (w : WireAddr) : bytes :=
  match w with
  | WireIPv4 ip => x01 :: ip
  | WireDomain len name => x03 :: len :: name
  | WireIPv6 ip => x04 :: ip
  end.

Definition header_bytes (cmd : byte) (w : WireAddr) (hi lo : byte) : bytes :=
  cmd :: wire_bytes w ++ [hi; lo].

Definition wire_address (w : WireAddr) (hi lo : byte) : Address :=
  match w with
  | WireIPv4 ip =>
      {| AddressType_ := IPv4; DomainName := ""; IP := ip;
         Port := port_of hi lo; NetworkType := "tcp" |}
  | WireDomain _ name =>
      {| AddressType_ := DomainName_; DomainName := string_of_list_byte name;
         IP := []; Port := port_of hi lo; NetworkType := "tcp" |}
  | WireIPv6 ip =>
      {| AddressType_ := IPv6; DomainName := ""; IP := ip;
         Port := port_of hi lo; NetworkType := "tcp" |}
  end.

(** ** Package option: the handlers of the command line *)

Module option.

(** [type Handler interface]: a handler by its name, its priority and
    what its [Handle] does when called. *)
Record Handler := {
  Name : string;
  Priority : Z;
  Handle : outcome (option error)
}.

(** [func RegisterHandler(h Handler)], on the map [handlers]. *)
Definition RegisterHandler (h : Handler) (handlers : gmap string Handler)
  : gmap string Handler :=
  <[ Name h := h ]> handlers.

(** The body of the [range] of [PopOptionHandler]. *)
Definition max_step (maxHandler : option Handler) (h : Handler) : option Handler :=
  match maxHandler with
  | None => Some h
  | Some m => if (Priority m <? Priority h)%Z then Some h else Some m
  end.

(** [func PopOptionHandler() (Handler, error)]; [visit] is the handlers
    of the map in the order the [range] visits them. *)
Definition PopOptionHandler (visit : list Handler) (handlers : gmap string Handler)
  : (option Handler * option error) * gmap string Handler :=
  match foldl max_step None visit with
  | None => ((None, Some (common_Error (NewError "no option left"))), handlers)
  | Some maxHandler => ((Some maxHandler, None), delete (Name maxHandler) handlers)
  end.

(** The handlers are stored under their names, as [RegisterHandler]
    stores them. *)
Definition keyed (handlers : gmap string Handler) : Prop :=
  forall (k : string) (h : Handler), handlers !! k = Some h -> Name h = k.

(** A [range] visits every entry of the map once, in an order of its
    own. *)
Definition ranges (range : gmap string Handler -> list Handler) : Prop :=
  forall m : gmap string Handler, range m ≡ₚ (map_to_list m).*2.

End option.

(** ** Package main *)

Module main.

(** How [main] ends: a handler returned nil, [log.Fatal("invalid options")]
    was called, or a handler did not return. *)
Inductive Ending :=
  | Handled (h : option.Handler)
  | InvalidOptions
  | HandlerPanics (h : option.Handler) (msg : string)
  | HandlerWaits (h : option.Handler).

(** The [for] of [func main()]: [range] gives the order in which a map
    is visited, [tried] collects the handlers that returned an error;
    [None] when the rounds run out. *)
Fixpoint loop (rounds : nat) (range : gmap string option.Handler -> list option.Handler)
    (handlers : gmap string option.Handler) (tried : list option.Handler)
  : option (list option.Handler * Ending) :=
  match rounds with
  | 0 => None
  | S rounds' =>
      match option.PopOptionHandler (range handlers) handlers with
      | ((Some h, _), handlers') =>
          match option.Handle h with
          | Returns None => Some (tried, Handled h)
          | Returns (Some _) => loop rounds' range handlers' (tried ++ [h])
          | Panics msg => Some (tried, HandlerPanics h msg)
          | Waits => Some (tried, HandlerWaits h)
          end
      | ((None, _), _) => Some (tried, InvalidOptions)
      end
  end.

(** [func main()]: every round takes a handler off the map, so one
    round more than there are handlers is enough. *)
Definition main (range : gmap string option.Handler -> list option.Handler)
    (handlers : gmap string option.Handler) : option (list option.Handler * Ending) :=
  loop (S (size handlers)) range handlers [].

(** The handlers of [tried] come by their priorities, the greatest
    first. *)
Definition by_priority (tried : list option.Handler) : Prop :=
  forall (i j : nat) (a b : option.Handler),
    i < j -> tried !! i = Some a -> tried !! j = Some b ->
    (option.Priority b <= option.Priority a)%Z.

(** [main] stops on the registered handler [h], whose [Handle] does
    [o], after every handler of a greater priority has been tried. *)
Definition stops_on (handlers : gmap string option.Handler)
    (tried : list option.Handler) (h : option.Handler) (o : outcome (option error))
  : Prop :=
  handlers !! option.Name h = Some h
  /\ option.Handle h = o
  /\ forall (k : string) (h' : option.Handler),
       handlers !! k = Some h' ->
       (option.Priority h < option.Priority h')%Z -> h' ∈ tried.

(** How [main] may end after the handlers of [tried]. *)
Definition ends (handlers : gmap string option.Handler)
    (tried : list option.Handler) (ending : Ending) : Prop :=
  match ending with
  | Handled h => stops_on handlers tried h (Returns None)
  | InvalidOptions =>
      forall (k : string) (h : option.Handler), handlers !! k = Some h -> h ∈ tried
  | HandlerPanics h msg => stops_on handlers tried h (Panics msg)
  | HandlerWaits h => stops_on handlers tried h Waits
  end.

End main.

(** ** Package config: configurations in the context *)

Module config.

Section Values.

(** The configurations: Go's [interface{}]. *)
Variable V : Type.

(** [context.Context], by the values [context.WithValue] has put on
    it, the last one first. *)
Definition Context := list (string * V).

(** [context.WithValue(ctx, key, val)] *)
Definition WithValue (ctx : Context) (key : string) (val : V) : Context :=
  (key, val) :: ctx.

(** [ctx.Value(key)] *)
Fixpoint Value (ctx : Context) (key : string) : option V :=
  match ctx with
  | [] => None
  | (k, v) :: parent => if String.eqb k key then Some v else Value parent key
  end.

(** [type Creator func() interface{}], by what it returns. *)
Definition Creator := V.

(** [func RegisterConfigCreator(name string, creator Creator)], on the
    map [creators]. *)
Definition RegisterConfigCreator (name : string) (creator : Creator)
    (creators : gmap string Creator) : gmap string Creator :=
  <[ name +:+ "_CONFIG" := creator ]> creators.

(** [func parseJSON(data []byte)] and [func parseYAML(data []byte)]:
    [Unmarshal] is [json.Unmarshal] or [yaml.Unmarshal], returning
    the configuration it filled and its error; [visit] is the
    creators in the order the [range] visits them. *)
Fixpoint parse (Unmarshal : bytes -> V -> V * option error) (data : bytes)
    (visit : list (string * Creator)) (result : gmap string V)
  : option (gmap string V) * option error :=
  match visit with
  | [] => (Some result, None)
  | (name, creator) :: rest =>
      let '(config, err) := Unmarshal data creator in
      match err with
      | Some e => (None, Some e)
      | None => parse Unmarshal data rest (<[ name := config ]> result)
      end
  end.

(** [func WithJSONConfig(ctx, data)] and [func WithYAMLConfig(ctx, data)];
    [range] gives the order in which the map of the parsed
    configurations is visited. *)
Definition WithParsedConfig (Unmarshal : bytes -> V -> V * option error)
    (range : gmap string V -> list (string * V))
    (creators : list (string * Creator)) (ctx : Context) (data : bytes)
  : Context * option error :=
  match parse Unmarshal data creators ∅ with
  | (_, Some err) => (ctx, Some err)
  | (None, None) => (ctx, None)
  | (Some configs, None) =>
      (foldl (fun ctx '(name, config) => WithValue ctx name config) ctx (range configs),
       None)
  end.

(** [func WithConfig(ctx, name, cfg)] *)
Definition WithConfig (ctx : Context) (name : string) (cfg : V) : Context :=
  WithValue ctx (name +:+ "_CONFIG") cfg.

(** [func FromContext(ctx, name) interface{}], [None] for nil. *)
Definition FromContext (ctx : Context) (name : string) : option V :=
  Value ctx (name +:+ "_CONFIG").

(** A [range] visits every entry of a map once, in an order of its
    own. *)
Definition ranges {A : Type} (range : gmap string A -> list (string * A)) : Prop :=
  forall m : gmap string A, range m ≡ₚ map_to_list m.

End Values.

Arguments WithValue {V} ctx key val.
Arguments Value {V} ctx key.
Arguments RegisterConfigCreator {V} name creator creators.
Arguments parse {V} Unmarshal data visit result.
Arguments WithParsedConfig {V} Unmarshal range creators ctx data.
Arguments WithConfig {V} ctx name cfg.
Arguments FromContext {V} ctx name.
Arguments ranges {A} range.

End config.

(** ** Package proxy: the option of the configuration file, the stacks *)

(** Package tunnel, as package proxy uses it: the servers and the
    clients of the tunnels, the error of [tunnel.GetTunnel(name)] for a
    name that is not registered, and [NewServer] and [NewClient] of the
    tunnel registered under a name, on an underlay that may be nil. *)
Class Tunnels := {
  Srv : Type;
  Cli : Type;
  tunnel_GetTunnel : string -> option error;
  Tunnel_NewServer : string -> option Srv -> Srv + error;
  Tunnel_NewClient : string -> option Cli -> Cli + error
}.

(** A run of the code that builds the stacks: to its end, up to a call
    of [log.Fatal], up to a nil pointer dereference, or without end. *)
Inductive run (A : Type) : Type :=
  | Done (a : A)
  | LogFatal (msg : string)
  | NilPanic
  | Diverges.
Arguments Done {A} a.
Arguments LogFatal {A} msg.
Arguments NilPanic {A}.
Arguments Diverges {A}.

#[global] Instance run_ret : MRet run := fun A a => Done a.
#[global] Instance run_bind : MBind run := fun A B f m =>
  match m with
  | Done a => f a
  | LogFatal msg => LogFatal msg
  | NilPanic => NilPanic
  | Diverges => Diverges
  end.

Module proxy.

(** A run up to a call of [log.Fatal], or to its end. *)
Inductive fatal (A : Type) : Type :=
  | Fine (a : A)
  | Fatal (msg : string).
Arguments Fine {A} a.
Arguments Fatal {A} msg.

(** [func detectAndReadConfig(file string) ([]byte, bool, error)];
    [ReadFile] is [ioutil.ReadFile], its data nil when it fails. *)
Definition detectAndReadConfig (ReadFile : string -> bytes * option error)
    (file : string) : fatal ((option bytes * bool) * option error) :=
  let read := fun isJSON : bool =>
    let '(data, err) := ReadFile file in
    match err with
    | Some e => Fine ((None, false), Some e)
    | None => Fine ((Some data, isJSON), None)
    end in
  if HasSuffix file ".json" then read true
  else if HasSuffix file ".yaml" || HasSuffix file ".yml" then read false
  else Fatal ("unsupported config format: " +:+ file
              +:+ ". use .yaml or .json instead.").

Definition defaultConfigPath : list string :=
  ["config.json"; "config.yml"; "config.yaml"].

(** The [for] of [Handle] over the default paths: it goes on after a
    file that fails and stops at the first that is read. *)
Fixpoint try_paths (ReadFile : string -> bytes * option error) (files : list string)
    (current : option bytes * bool) : fatal (option bytes * bool) :=
  match files with
  | [] => Fine current
  | file :: rest =>
      match detectAndReadConfig ReadFile file with
      | Fatal msg => Fatal msg
      | Fine (found, Some _) => try_paths ReadFile rest found
      | Fine (found, None) => Fine found
      end
  end.

(** What [Handle] does next. *)
Inductive Chosen :=
  | RunProxy (data : bytes) (isJSON : bool)  (* NewProxyFromConfigData(data, isJSON), Run *)
  | NoValidConfig.                           (* log.Fatal("no valid config") *)

(** [func (o *Option) Handle() error], up to the choice of the
    configuration, on the value of the flag [-config]. *)
Definition Option_Handle (ReadFile : string -> bytes * option error) (path : string)
  : fatal Chosen :=
  let loaded :=
    if String.eqb path "" then try_paths ReadFile defaultConfigPath (None, false)
    else
      match detectAndReadConfig ReadFile path with
      | Fatal msg => Fatal msg
      | Fine (_, Some e) => Fatal (error_Error e)
      | Fine (found, None) => Fine found
      end in
  match loaded with
  | Fatal msg => Fatal msg
  | Fine (Some data, isJSON) => Fine (RunProxy data isJSON)
  | Fine (None, _) => Fine NoValidConfig
  end.

(** [type Node struct]: the nodes live in a heap and a [*Node] is an
    index of the heap.  The context, which all the nodes of a tree
    share, and the client, which nothing here sets, are left out. *)
Record Node (S : Type) := {
  Name : string;
  Next : gmap string nat;               (* map[string]*Node *)
  IsEndpoint : bool;
  Server : option S                     (* tunnel.Server, possibly nil *)
}.
Arguments Name {S} n.
Arguments Next {S} n.
Arguments IsEndpoint {S} n.
Arguments Server {S} n.

Definition Heap `{Tunnels} := list (Node Srv).

Definition with_Next {S : Type} (n : Node S) (next : gmap string nat) : Node S :=
  {| Name := Name n; Next := next; IsEndpoint := IsEndpoint n; Server := Server n |}.

Definition with_IsEndpoint {S : Type} (n : Node S) (b : bool) : Node S :=
  {| Name := Name n; Next := Next n; IsEndpoint := b; Server := Server n |}.

Definition with_Server {S : Type} (n : Node S) (s : option S) : Node S :=
  {| Name := Name n; Next := Next n; IsEndpoint := IsEndpoint n; Server := s |}.

(** [func (n *Node) BuildNext(name string) *Node], returning the node
    and the heap it leaves. *)
Definition BuildNext `{Tunnels} (n : nat) (name : string) (h : Heap)
  : run (nat * Heap) :=
  match h !! n with
  | None => NilPanic
  | Some node =>
      match Next node !! name with
      | Some next => Done (next, h)
      | None =>
          match tunnel_GetTunnel name with
          | Some err => LogFatal (error_Error err)
          | None =>
              match Tunnel_NewServer name (Server node) with
              | inr err => LogFatal (error_Error err)
              | inl s =>
                  let newNode := {| Name := name; Next := ∅; IsEndpoint := false;
                                    Server := Some s |} in
                  let p := length h in
                  Done (p, <[ n := with_Next node (<[ name := p ]> (Next node)) ]>
                             (h ++ [newNode]))
              end
          end
      end
  end.

(** [func (n *Node) LinkNextNode(next *Node) *Node] *)
Definition LinkNextNode `{Tunnels} (n next : nat) (h : Heap) : run (nat * Heap) :=
  match h !! n, h !! next with
  | Some node, Some nextNode =>
      match Next node !! Name nextNode with
      | Some found => Done (found, h)
      | None =>
          let h1 := <[ n := with_Next node (<[ Name nextNode := next ]> (Next node)) ]> h in
          match tunnel_GetTunnel (Name nextNode) with
          | Some err => LogFatal (error_Error err)
          | None =>
              match Tunnel_NewServer (Name nextNode) (Server node) with
              | inr err => LogFatal (error_Error err)
              | inl s =>
                  match h1 !! next with
                  | Some nextNode1 =>
                      Done (next, <[ next := with_Server nextNode1 (Some s) ]> h1)
                  | None => NilPanic
                  end
              end
          end
      end
  | _, _ => NilPanic
  end.

(** [node.IsEndpoint = true] *)
Definition set_IsEndpoint `{Tunnels} (n : nat) (h : Heap) : run Heap :=
  match h !! n with
  | None => NilPanic
  | Some node => Done (<[ n := with_IsEndpoint node true ]> h)
  end.

(** [func FindAllEndpoints(root *Node) []tunnel.Server], to the depth
    [fuel]; [range] gives the order in which a map is visited. *)
Fixpoint FindAllEndpoints_to `{Tunnels} (fuel : nat) (range : gmap string nat -> list nat)
    (h : Heap) (root : nat) : run (list (option Srv)) :=
  match fuel with
  | 0 => Diverges
  | S fuel' =>
      match h !! root with
      | None => NilPanic
      | Some node =>
          let servers :=
            if IsEndpoint node || (size (Next node) =? 0)%nat then [Server node]
            else [] in
          foldl (fun (servers : run (list (option Srv))) (next : nat) =>
                   servers ← servers;
                   found ← FindAllEndpoints_to fuel' range h next;
                   Done (servers ++ found))
                (Done servers) (range (Next node))
      end
  end.

(** A tree of the heap is no deeper than the heap is long; the
    recursion has no end on a heap with a cycle. *)
Definition FindAllEndpoints `{Tunnels} (range : gmap string nat -> list nat)
    (h : Heap) (root : nat) : run (list (option Srv)) :=
  FindAllEndpoints_to (S (length h)) range h root.

(** [func CreateClientStack(ctx context.Context, clientStack []string) (tunnel.Client, error)] *)
Definition CreateClientStack `{Tunnels} (clientStack : list string)
  : option Cli * option error :=
  foldl (fun (acc : option Cli * option error) (name : string) =>
           match acc with
           | (_, Some err) => acc                      (* returned already *)
           | (client, None) =>
               match tunnel_GetTunnel name with
               | Some err => (None, Some err)
               | None =>
                   match Tunnel_NewClient name client with
                   | inr err => (None, Some err)
                   | inl c => (Some c, None)
                   end
               end
           end)
        (None, None) clientStack.

(** [func CreateServerStack(ctx context.Context, serverStack []string) (tunnel.Server, error)] *)
Definition CreateServerStack `{Tunnels} (serverStack : list string)
  : option Srv * option error :=
  foldl (fun (acc : option Srv * option error) (name : string) =>
           match acc with
           | (_, Some err) => acc                      (* returned already *)
           | (server, None) =>
               match tunnel_GetTunnel name with
               | Some err => (None, Some err)
               | None =>
                   match Tunnel_NewServer name server with
                   | inr err => (None, Some err)
                   | inl s => (Some s, None)
                   end
               end
           end)
        (None, None) serverStack.

(** A [range] visits every entry of the map once, in an order of its
    own. *)
Definition ranges (range : gmap string nat -> list nat) : Prop :=
  forall m : gmap string nat, range m ≡ₚ (map_to_list m).*2.

End proxy.

(** ** Package client: the outbound stack *)

Module client.

(** The names of the tunnels, [transport.Name] and the like. *)
Inductive Name :=
  | transport_Name | tls_Name | websocket_Name | shadowsocks_Name
  | trojan_Name | mux_Name | simplesocks_Name | router_Name | freedom_Name.

#[global] Instance Name_eq_dec : EqDecision Name.
Proof. solve_decision. Defined.

(** The tunnels of the longest stack, in their order. *)
Definition full_stack : list Name :=
  [transport_Name; tls_Name; websocket_Name; shadowsocks_Name;
   trojan_Name; mux_Name; simplesocks_Name; router_Name].

(** [func GenerateClientTree(transportPlugin, muxEnabled, wsEnabled, ssEnabled, routerEnabled bool) []string] *)
Definition GenerateClientTree
    (transportPlugin muxEnabled wsEnabled ssEnabled routerEnabled : bool) : list Name :=
  let clientStack := [transport_Name] in
  let clientStack :=
    if negb transportPlugin then clientStack ++ [tls_Name] else clientStack in
  let clientStack :=
    if wsEnabled then clientStack ++ [websocket_Name] else clientStack in
  let clientStack :=
    if ssEnabled then clientStack ++ [shadowsocks_Name] else clientStack in
  let clientStack := clientStack ++ [trojan_Name] in
  let clientStack :=
    if muxEnabled then clientStack ++ [mux_Name; simplesocks_Name] else clientStack in
  let clientStack :=
    if routerEnabled then clientStack ++ [router_Name] else clientStack in
  clientStack.

End client.

(** ** Package server: the tree of the inbound stacks *)

Module server.

(** [client.Config], by the fields the server reads. *)
Record Config := {
  RouterEnabled : bool;
  TransportPluginEnabled : bool;
  ShadowsocksEnabled : bool
}.

(** [proxy.Proxy], by its sources and its sink. *)
Record Proxy `{Tunnels} := {
  sources : list (option Srv);
  sink : option Cli
}.

Section Create.

Context `{Tunnels}.

(** The values of [transport.Name] and the like. *)
Variable name : client.Name -> string.

(** What [transport.NewServer(ctx, nil)] returns. *)
Variable transport_NewServer : Srv + error.

(** The order in which a map is visited. *)
Variable range : gmap string nat -> list nat.

(** [x.BuildNext(trojan.Name).BuildNext(mux.Name).BuildNext(simplesocks.Name).IsEndpoint = true]
    and [x.BuildNext(trojan.Name).IsEndpoint = true] *)
Definition build_trojan (subTree : nat) (h : proxy.Heap) : run proxy.Heap :=
  '(n, h) ← proxy.BuildNext subTree (name client.trojan_Name) h;
  '(n, h) ← proxy.BuildNext n (name client.mux_Name) h;
  '(n, h) ← proxy.BuildNext n (name client.simplesocks_Name) h;
  h ← proxy.set_IsEndpoint n h;
  '(n, h) ← proxy.BuildNext subTree (name client.trojan_Name) h;
  proxy.set_IsEndpoint n h.

(** The tree of the creator, from the root with the transport
    server: the root [FindAllEndpoints] is given, and the heap. *)
Definition build_tree (cfg : Config) (transportServer : Srv) : run (nat * proxy.Heap) :=
  let root := 0 in
  let h := [ {| proxy.Name := name client.transport_Name; proxy.Next := ∅;
                proxy.IsEndpoint := false;
                proxy.Server := Some transportServer |} ] in
  '(root, h) ← (if negb (TransportPluginEnabled cfg)
                then proxy.BuildNext root (name client.tls_Name) h
                else Done (root, h));
  let trojanSubTree := root in
  '(trojanSubTree, h) ← (if ShadowsocksEnabled cfg
                         then proxy.BuildNext trojanSubTree
                                              (name client.shadowsocks_Name) h
                         else Done (trojanSubTree, h));
  h ← build_trojan trojanSubTree h;
  '(wsSubTree, h) ← proxy.BuildNext root (name client.websocket_Name) h;
  '(wsSubTree, h) ← (if ShadowsocksEnabled cfg
                     then proxy.BuildNext wsSubTree (name client.shadowsocks_Name) h
                     else Done (wsSubTree, h));
  h ← build_trojan wsSubTree h;
  Done (root, h).

(** The creator that [init] registers under the name "SERVER", on the
    configuration [config.FromContext] gives; it returns the proxy
    and the error. *)
Definition create (cfg : Config) : run (option Proxy * option error) :=
  match transport_NewServer with
  | inr err => Done (None, Some err)
  | inl transportServer =>
      let clientStack :=
        if RouterEnabled cfg
        then [name client.freedom_Name; name client.router_Name]
        else [name client.freedom_Name] in
      '(root, h) ← build_tree cfg transportServer;
      serverList ← proxy.FindAllEndpoints range h root;
      match proxy.CreateClientStack clientStack with
      | (_, Some err) => Done (None, Some err)
      | (clientList, None) =>
          Done (Some {| sources := serverList; sink := clientList |}, None)
      end
  end.

End Create.

End server.

(** ** A small deployment, for running the servers on inputs *)

Module Example.

Definition split_at_colon (s : string) : (string * string) * option error :=
  match String.index 0 ":" s with
  | Some i =>
      ((substring 0 i s, substring (S i) (String.length s - S i) s), None)
  | None => (("", ""), Some (lib_error "missing port in address"))
  end.

Definition lower_ascii (c : ascii) : ascii :=
  let n := nat_of_ascii c in
  if (65 <=? n)%nat && (n <=? 90)%nat then ascii_of_nat (n + 32) else c.

Fixpoint to_lower (s : string) : string :=
  match s with
  | EmptyString => EmptyString
  | String c s' => String (lower_ascii c) (to_lower s')
  end.

(** A reader of requests that knows a few request lines. *)
Definition read_request : Reader (Request + error) :=
  DoRead 4096 (fun d err =>
    match err with
    | Some e => Ret (inr e)
    | None =>
        let text := string_of_list_byte d in
        if HasPrefix text "GET /ws " then
          Ret (inl {| Header_Upgrade := "WebSocket"; URL_Path := "/ws" |})
        else if HasPrefix text "GET /wrongpath " then
          Ret (inl {| Header_Upgrade := "websocket"; URL_Path := "/wrongpath" |})
        else if HasPrefix text "GET " then
          Ret (inl {| Header_Upgrade := ""; URL_Path := "/" |})
        else Ret (inr (lib_error "malformed HTTP request"))
    end).

Definition lib : GoLib :=
  {| net_SplitHostPort := split_at_colon;
     strings_ToLower := to_lower;
     http_ReadRequest := read_request |}.

Definition user_hash : string :=
  "d63dc919e201d7bc4c825630d2cf25fdc93d4b2f0d46706d29038d01".

Definition alice : statistic.User :=
  {| statistic.hash := user_hash; statistic.sent := 0; statistic.recv := 0;
     statistic.ip_set := ∅; statistic.ip_limit := 2 |}.

Definition users : gmap string statistic.User := {[ user_hash := alice ]}.

Definition fallback : Address :=
  {| AddressType_ := IPv4; DomainName := ""; IP := [x7f; x00; x00; x01];
     Port := 80; NetworkType := "tcp" |}.

Definition trojan_server : trojan.Server :=
  {| trojan.auth := users; trojan.redirAddr := fallback; trojan.connChan := [];
     trojan.muxChan := []; trojan.packetChan := [] |}.

Definition conn_of (chunks : list bytes) : Conn :=
  {| incoming := chunks; outgoing := []; closed := false;
     remoteAddr := "203.0.113.7:50000" |}.

(** A probe: 56 bytes that are no user's hash, then an HTTP request. *)
Definition probe : Conn :=
  conn_of [list_byte_of_string
             "xxxxxxxxxxxxxxxxxxxxxxxxxxxxxxxxxxxxxxxxxxxxxxxxxxxxxxxx";
           list_byte_of_string "GET / HTTP/1.1"].

(** CONNECT to the domain [example.com], port 443. *)
Definition connect_header : bytes :=
  header_bytes x01 (WireDomain x0b (list_byte_of_string "example.com")) x01 xbb.



(** A client that asks for command [cmd] on the domain [name]. *)
Definition client (cmd : byte) (len : byte) (name : string) : Conn :=
  conn_of [list_byte_of_string user_hash; [x0d; x0a];
           header_bytes cmd (WireDomain len (list_byte_of_string name)) x01 xbb;
           [x0d; x0a]; list_byte_of_string "payload"].

Definition tls_server : tls.Server :=
  {| tls.fallbackAddress := Some fallback; tls.httpResp := None;
     tls.connChan := []; tls.wsChan := []; tls.nextHTTP := 0 |}.

(** A TLS library that takes a record of type 0x16 for a handshake and
    then delivers one request. *)
Definition tls_session : tls.Session :=
  {| tls.Handshake :=
       DoRead 5 (fun d _ =>
         match d with
         | x16 :: _ => Ret None
         | _ => Ret (Some (lib_error
                  "tls: first record does not look like a TLS handshake"))
         end);
     tls.plaintext := [list_byte_of_string "GET /ws HTTP/1.1"] |}.

(** A probe of the TLS port with plain HTTP. *)
Definition http_probe : Conn := conn_of [list_byte_of_string "GET / HTTP/1.0"].

(** A client that opens with a TLS record. *)
Definition tls_client : Conn := conn_of [[x16; x03; x01; x00; x05]; [x01; x02]].

Definition ws_server : websocket.Server :=
  {| websocket.hostname := "example.com"; websocket.path := "/ws";
     websocket.enabled := true; websocket.redirAddr := fallback |}.

Definition upgrade : websocket.Upgrade :=
  {| websocket.NewConfig := fun _ _ => None;
     websocket.handshake_in_time := fun _ _ => true |}.

(** A request for another path than the server's. *)
Definition wrong_path : Conn := conn_of [list_byte_of_string "GET /wrongpath HTTP/1.1"].

(** Key files that decrypt with the password "secret". *)
Definition key_lib : tls.KeyLib :=
  {| tls.ioutil_ReadFile := fun name =>
       if String.eqb name "server.key" then (list_byte_of_string "KEY", None)
       else if String.eqb name "server.crt" then (list_byte_of_string "CERT", None)
       else ([], Some (lib_error "no such file or directory"));
     tls.pem_Decode := fun data =>
       match data with
       | [] => None
       | _ => Some {| tls.Block_Bytes := data |}
       end;
     tls.x509_DecryptPEMBlock := fun b password =>
       if String.eqb (string_of_list_byte password) "secret"
       then (tls.Block_Bytes b, None)
       else ([], Some (lib_error "x509: decryption password incorrect"));
     tls.tls_X509KeyPair := fun cert key =>
       ({| tls.Certificate_ := [cert]; tls.PrivateKey := key; tls.Leaf := None |},
        match key with
        | [] => Some (lib_error "tls: failed to find any PEM data in key input")
        | _ => None
        end);
     tls.x509_ParseCertificate := fun der =>
       (Some {| tls.CommonName := "example.com"; tls.DNSNames := [] |}, None);
     tls.tls_LoadX509KeyPair := fun certPath keyPath =>
       ({| tls.Certificate_ := [list_byte_of_string "CERT"];
           tls.PrivateKey := list_byte_of_string "KEY"; tls.Leaf := None |}, None) |}.

(** A second user, who may connect from one IP and is connected from
    another. *)
Definition bob_hash : string :=
  "0a1b2c3d4e5f60718293a4b5c6d7e8f90a1b2c3d4e5f60718293a4b5".

Definition bob : statistic.User :=
  {| statistic.hash := bob_hash; statistic.sent := 0; statistic.recv := 0;
     statistic.ip_set := {[ "198.51.100.1" ]}; statistic.ip_limit := 1 |}.

Definition two_users : gmap string statistic.User :=
  <[ bob_hash := bob ]> users.

(** A client whose hash arrives in two segments. *)
Definition split_hash_client : Conn :=
  conn_of [list_byte_of_string "d63dc919e201d7bc4c825630d2cf";
           list_byte_of_string "25fdc93d4b2f0d46706d29038d01";
           [x0d; x0a]].

(** Bob, from an IP that is not in his set. *)
Definition bob_client : Conn :=
  conn_of [list_byte_of_string bob_hash; [x0d; x0a];
           connect_header; [x0d; x0a]].

(** The trojan server after it handled a CONNECT to example.com. *)
Definition trojan_server_after_connect : trojan.Server :=
  match @trojan.handleConn lib trojan_server (client x01 x0b "example.com") with
  | Returns (s', _) => s'
  | _ => trojan_server
  end.

(** A system in which every named host can be dialled and every file
    opened. *)
Definition sys_lib : SysLib :=
  {| tunnel_NewAddressFromHostPort := fun network host port =>
       {| AddressType_ := DomainName_; DomainName := host; IP := [];
          Port := Z.to_N port; NetworkType := network |};
     net_Dial := fun a =>
       if String.eqb (DomainName a) "" then Some (lib_error "dial tcp: missing address")
       else None;
     os_OpenFile := fun name => None |}.

(** A TLS configuration with a fallback server on port 80. *)
Definition tls_config (password : string) : tls.Config :=
  {| tls.RemoteHost := "127.0.0.1";
     tls.TLS := {| tls.VerifyHostName := true; tls.SNI := "example.com";
                   tls.KeyPath := "server.key"; tls.CertPath := "server.crt";
                   tls.KeyPassword := password;
                   tls.FallbackHost := ""; tls.FallbackPort := 80;
                   tls.HTTPResponseFileName := ""; tls.KeyLogPath := "";
                   tls.CertCheckRate := 60 |} |}.

(** The handlers the packages register, as they act on the command
    line [trojan-go -version]: the easy mode and the standard input are
    not asked for, and the handler of the configuration file does not
    return. *)
Definition easy_handler : option.Handler :=
  {| option.Name := "easy"; option.Priority := 50;
     option.Handle := Returns (Some (common_Error (NewError "empty"))) |}.

Definition version_handler : option.Handler :=
  {| option.Name := "version"; option.Priority := 10;
     option.Handle := Returns None |}.

Definition stdin_handler : option.Handler :=
  {| option.Name := "PROXY_STDIN"; option.Priority := 0;
     option.Handle :=
       Returns (Some (common_Error (NewError "reading from stdin is disabled"))) |}.

Definition config_handler : option.Handler :=
  {| option.Name := "PROXY"; option.Priority := -1; option.Handle := Waits |}.

Definition registry : gmap string option.Handler :=
  option.RegisterHandler config_handler
    (option.RegisterHandler stdin_handler
       (option.RegisterHandler version_handler
          (option.RegisterHandler easy_handler ∅))).

(** A [range] that visits a map by its keys. *)
Definition in_key_order {A : Type} (m : gmap string A) : list (string * A) :=
  map_to_list m.

Definition handlers_in_key_order (m : gmap string option.Handler)
  : list option.Handler :=
  (in_key_order m).*2.

End Example.
(** ** Lemmas on strings *)

Section StringFacts.















End StringFacts.

(** ** The SNI matching rule *)

Section SNIFacts.



(** The character before the suffix is not compared with ".". *)
Example isDomainNameMatched_separator :
isDomainNameMatched "*.example.com" "abexample.com" = true.
Proof. reflexivity. Qed.

End SNIFacts.



(** ** Reading a connection *)

Section ConnFacts.

Lemma next_chunk_Some (n : nat) (chunks : list bytes) (d : bytes) (rest : list bytes) :
  next_chunk n chunks = Some (d, rest) ->
  d ++ concat rest = concat chunks /\ length d <= n /\ (0 < n -> d <> []).
Proof.
  induction chunks as [|ch chunks IH]; simpl; [discriminate|].
  destruct ch as [|b ch]; [exact IH|].
  destruct (Nat.leb_spec (length (b :: ch)) n) as [Hle|Hgt]; intros [= <- <-].
  - repeat split; [exact Hle | discriminate].
  - simpl concat. rewrite app_assoc, take_drop. repeat split.
    + rewrite length_take. lia.
    + intros Hn. destruct n; [lia | discriminate].
Qed.

Lemma next_chunk_None (n : nat) (chunks : list bytes) :
  next_chunk n chunks = None <-> concat chunks = [].
Proof.
  induction chunks as [|ch chunks IH]; simpl; [tauto|].
  destruct ch as [|b ch]; [exact IH|].
  split; [|discriminate]. destruct (_ <=? _)%nat; discriminate.
Qed.

Lemma advances_refl (r : RewindConn) : tracking r -> advances r r.
Proof. intros H. now constructor. Qed.

Lemma advances_trans (r1 r2 r3 : RewindConn) :
  advances r1 r2 -> advances r2 r3 -> advances r1 r3.
Proof.
  intros [? H1 H2 H3] [? H4 H5 H6]. constructor; [done|congruence..].
Qed.

Lemma fresh_tracking (n : nat) (c : Conn) :
  tracking (SetBufferSize n (NewRewindConn c))
  /\ stream (SetBufferSize n (NewRewindConn c)) = concat (incoming c).
Proof. now repeat split. Qed.

(** One read of a tracking connection. *)
Lemma Read_tracking (n : nat) (r r' : RewindConn) (d : bytes) (err : option error) :
  tracking r ->
  Rewind.Read n r = ((d, err), r') ->
  advances r r'
  /\ buf r' = buf r ++ d
  /\ length d <= n
  /\ (err <> None -> d = [])
  /\ (err = None -> 0 < n -> d <> []).
Proof.
  intros [Hb Hi]. unfold Rewind.Read. rewrite Hb, Hi, Nat.ltb_irrefl.
  destruct (_ && _) eqn:Hfull.
  - intros [= <- <- <-]. rewrite app_nil_r.
    repeat split; try done; simpl; lia.
  - unfold Conn_Read.
    destruct (next_chunk _ _) as [[d0 rest]|] eqn:Hnext; intros [= <- <- <-].
    + apply next_chunk_Some in Hnext as (Hcat & Hlen & Hne).
      repeat split; simpl; try done.
      * rewrite length_app. lia.
      * unfold stream. simpl. now rewrite <- app_assoc, Hcat.
      * lia.
      * intros _ Hn. apply Hne.
        apply andb_false_iff in Hfull as [Hfull|Hfull].
        -- apply Nat.ltb_ge in Hfull. lia.
        -- apply Nat.leb_gt in Hfull. lia.
    + apply next_chunk_None in Hnext.
      repeat split; simpl; try done.
      * rewrite length_app. simpl. lia.
      * unfold stream. simpl. now rewrite Hnext, !app_nil_r.
      * lia.
Qed.


Lemma ReadFull_loop_advances (fuel want : nat) (acc : bytes) (r r' : RewindConn)
    (d : bytes) (err : option error) :
  tracking r ->
  ReadFull_loop fuel want acc r = ((d, err), r') ->
  advances r r' /\ exists got, d = acc ++ got /\ buf r' = buf r ++ got.
Proof.
  revert want acc r. induction fuel as [|fuel IH]; intros want acc r Ht; simpl.
  - destruct want; intros [= <- <- <-];
      (split; [now apply advances_refl | exists []; now rewrite !app_nil_r]).
  - destruct want as [|w].
    { intros [= <- <- <-].
      split; [now apply advances_refl | exists []; now rewrite !app_nil_r]. }
    destruct (Rewind.Read (S w) r) as [[d1 e1] r1] eqn:Hread.
    destruct (Read_tracking _ _ _ _ _ Ht Hread) as (Hadv & Hbuf & _).
    destruct e1 as [e|].
    + intros [= <- <- <-]. split; [done | eauto].
    + intros Hloop. apply IH in Hloop as (Hadv' & got & -> & Hbuf');
        [|apply Hadv].
      split; [eapply advances_trans; eauto|].
      exists (d1 ++ got). now rewrite Hbuf', Hbuf, <- !app_assoc.
Qed.

Lemma ReadFull_advances (want : nat) (r r' : RewindConn) (d : bytes)
    (err : option error) :
  tracking r ->
  ReadFull want r = ((d, err), r') ->
  advances r r' /\ buf r' = buf r ++ d.
Proof.
  intros Ht H. apply ReadFull_loop_advances in H as (? & got & -> & ?); auto.
Qed.



(** In any state, a read that asks for bytes and does not fail brings
    at least one, and a failing read brings none. *)
Lemma Read_progress (n : nat) (r r' : RewindConn) (d : bytes) (err : option error) :
  0 < n ->
  Rewind.Read n r = ((d, err), r') ->
  match err with
  | None => d <> []
  | Some e => d = [] /\ (e = io_EOF \/ e = ErrBufferOverflow)
  end.
Proof.
  intros Hn. unfold Rewind.Read.
  destruct (Nat.ltb_spec (index r) (length (buf r))) as [Hlt|Hge].
  - intros [= <- <- <-]. intros Hnil. apply (f_equal length) in Hnil.
    rewrite length_take, length_drop in Hnil. simpl in Hnil. lia.
  - destruct (buffering r).
    + destruct (_ && _) eqn:Hfull; [intros [= <- <- <-]; auto|].
      unfold Conn_Read.
      destruct (next_chunk _ _) as [[d0 rest]|] eqn:Hnext;
        intros [= <- <- <-]; [|auto].
      apply next_chunk_Some in Hnext as (_ & _ & Hne). apply Hne.
      apply andb_false_iff in Hfull as [Hfull|Hfull].
      * apply Nat.ltb_ge in Hfull. lia.
      * apply Nat.leb_gt in Hfull. lia.
    + unfold Conn_Read.
      destruct (next_chunk _ _) as [[d0 rest]|] eqn:Hnext;
        intros [= <- <- <-]; [|auto].
      apply next_chunk_Some in Hnext as (_ & _ & Hne). now apply Hne.
Qed.

(** [ReadFull] has rounds enough: it never stops for lack of them, and
    when it returns no error it returns [want] bytes. *)
Lemma ReadFull_loop_total (fuel want : nat) (acc : bytes) (r r' : RewindConn)
    (d : bytes) (err : option error) :
  want <= fuel ->
  ReadFull_loop fuel want acc r = ((d, err), r') ->
  err <> Some io_ErrNoProgress
  /\ (err = None -> length d = length acc + want).
Proof.
  revert want acc r. induction fuel as [|fuel IH]; intros want acc r Hfuel.
  - assert (want = 0) as -> by lia. simpl. intros [= <- <- <-].
    split; [discriminate | intros _; lia].
  - destruct want as [|w]; [simpl; intros [= <- <- <-]; split;
                             [discriminate | intros _; lia]|].
    cbn [ReadFull_loop].
    destruct (Rewind.Read (S w) r) as [[d1 e1] r1] eqn:Hread.
    pose proof (Read_progress (S w) r r1 d1 e1 (Nat.lt_0_succ w) Hread) as Hp.
    destruct e1 as [e|].
    + destruct Hp as (-> & [-> | ->]); intros [= <- <- <-];
        (split; [|discriminate]); rewrite ?app_nil_r; destruct acc; discriminate.
    + intros Hloop.
      assert (Hlen : length d1 <= S w).
      { revert Hread. unfold Rewind.Read, Conn_Read.
        repeat case_match; intros; simplify_eq;
          try (rewrite length_take; lia);
          match goal with
          | H : next_chunk _ _ = Some _ |- _ =>
              apply next_chunk_Some in H as (_ & ? & _); lia
          end. }
      apply IH in Hloop as [H1 H2].
      * split; [exact H1|]. intros He. rewrite (H2 He), length_app. lia.
      * destruct d1; [contradiction | simpl; lia].
Qed.

Lemma ReadFull_total (want : nat) (r r' : RewindConn) (d : bytes)
    (err : option error) :
  ReadFull want r = ((d, err), r') ->
  err <> Some io_ErrNoProgress /\ (err = None -> length d = want).
Proof.
  intros H. apply ReadFull_loop_total in H; [exact H | lia].
Qed.

(** A library reader keeps the stream too: its writes go to the peer. *)
Lemma run_Reader_advances {A : Type} (p : Reader A) (r r' : RewindConn) (a : A) :
  tracking r ->
  run_Reader p r = (a, r') ->
  advances r r'.
Proof.
  revert r. induction p as [a0|n k IH|w k IH]; intros r Ht; simpl.
  - intros [= <- <-]. now apply advances_refl.
  - destruct (Rewind.Read n r) as [[d e] r1] eqn:Hread. intros Hrun.
    destruct (Read_tracking _ _ _ _ _ Ht Hread) as (Hadv & _).
    eapply advances_trans; [exact Hadv|]. eapply IH; [apply Hadv | exact Hrun].
  - intros Hrun. apply IH in Hrun; [|exact Ht].
    destruct Hrun as [H1 H2 H3 H4]. now constructor.
Qed.

(** Rewinding a connection that kept its stream replays the stream
    from its first byte. *)
Lemma rewound_pending (r r' : RewindConn) :
  advances r r' ->
  Rewind.pending (StopBuffering (Rewind r')) = stream r
  /\ Rewind.pending (Rewind (StopBuffering r')) = stream r.
Proof. intros [_ Hs _ _]. unfold Rewind.pending. simpl. now rewrite drop_0. Qed.

End ConnFacts.

(** ** Copying a connection to the redirect target *)

Section CopyFacts.

Lemma copy_buffer_pos : 0 < copy_buffer.
Proof. unfold copy_buffer. lia. Qed.

Lemma take_drop_length {A : Type} (n : nat) (l : list A) :
  take n l ++ drop (length (take n l)) l = l.
Proof.
  rewrite length_take. destruct (Nat.le_gt_cases n (length l)) as [H|H].
  - rewrite Nat.min_l by exact H. apply take_drop.
  - rewrite Nat.min_r, take_ge, drop_all by lia. apply app_nil_r.
Qed.

(** One read of a connection that no longer buffers: it takes bytes off
    what is pending, or fails when nothing is. *)
Lemma Read_stopped (n : nat) (r r' : RewindConn) (d : bytes) (err : option error) :
  buffering r = false -> 0 < n ->
  Rewind.Read n r = ((d, err), r') ->
  buffering r' = false
  /\ Rewind.pending r = d ++ Rewind.pending r'
  /\ (err = None -> d <> [])
  /\ (err <> None -> Rewind.pending r = []).
Proof.
  intros Hb Hn. unfold Rewind.Read, Rewind.pending. rewrite Hb.
  destruct (Nat.ltb_spec (index r) (length (buf r))) as [Hlt|Hge].
  - intros [= <- <- <-]. simpl. repeat split; try done.
    + rewrite <- drop_drop, app_assoc. f_equal. symmetry. apply take_drop_length.
    + intros _ Hnil. apply (f_equal length) in Hnil.
      rewrite length_take, length_drop in Hnil. simpl in Hnil. lia.
  - rewrite drop_ge by lia. unfold Conn_Read.
    destruct (next_chunk _ _) as [[d0 rest]|] eqn:Hnext; intros [= <- <- <-]; simpl.
    + apply next_chunk_Some in Hnext as (Hcat & _ & Hne).
      rewrite drop_ge by lia. repeat split; try done. now intros _; apply Hne.
    + apply next_chunk_None in Hnext. rewrite drop_ge by lia. now rewrite Hnext.
Qed.

Lemma Copy_loop_all (fuel : nat) (acc : bytes) (r : RewindConn) :
  buffering r = false ->
  length (Rewind.pending r) < fuel ->
  exists r', Copy_loop fuel acc r = (Some (acc ++ Rewind.pending r), r').
Proof.
  revert acc r. induction fuel as [|fuel IH]; intros acc r Hb Hfuel; [lia|].
  cbn [Copy_loop].
  destruct (Rewind.Read copy_buffer r) as [[d e] r1] eqn:Hread.
  destruct (Read_stopped _ _ _ _ _ Hb copy_buffer_pos Hread) as (Hb1 & Hp & Hd & He).
  destruct e as [e|].
  - exists r1. rewrite He by done. rewrite He in Hp by done.
    symmetry in Hp. apply app_eq_nil in Hp as [-> _]. reflexivity.
  - destruct (IH (acc ++ d) r1) as (r' & Hloop); [exact Hb1| |].
    + rewrite Hp, length_app in Hfuel.
      destruct d; [now exfalso; apply Hd | simpl in Hfuel; lia].
    + exists r'. now rewrite Hloop, Hp, app_assoc.
Qed.

(** [io.Copy] from a connection that no longer buffers delivers all
    that is pending on it, in order. *)
Lemma Copy_from_pending (r : RewindConn) :
  buffering r = false ->
  fst (Copy_from r) = Some (Rewind.pending r).
Proof.
  intros Hb. unfold Copy_from.
  destruct (Copy_loop_all (S (length (Rewind.pending r))) [] r Hb) as (r' & ->); [lia|].
  reflexivity.
Qed.

End CopyFacts.

(** ** The request header and [Auth] *)

Section AuthFacts.

Context `{lib : GoLib}.

(** Reading header bytes keeps the stream, whatever is done with them. *)
Lemma with_bytes_ind {A : Type} (Q : A -> Prop) (want : nat) (r : RewindConn)
    (fail : error -> RewindConn -> A) (k : bytes -> RewindConn -> A) :
  tracking r ->
  (forall e r', advances r r' -> Q (fail e r')) ->
  (forall d r', advances r r' -> Q (k d r')) ->
  Q (with_bytes want r fail k).
Proof.
  intros Ht Hfail Hk. unfold with_bytes.
  destruct (ReadFull want r) as [[d e] r'] eqn:Hread.
  apply ReadFull_advances in Hread as [Hadv _]; [|exact Ht].
  destruct e; auto.
Qed.

Lemma Address_ReadFrom_advances (r : RewindConn) :
  tracking r -> advances r (snd (Address_ReadFrom r)).
Proof.
  intros Ht. unfold Address_ReadFrom.
  assert (Hfin : forall t name ip r1, advances r r1 ->
    advances r (snd (with_bytes 2 r1 (fun e r' => (None, Some e, r'))
      (fun p r'' =>
         match p with
         | [hi; lo] =>
             (Some {| AddressType_ := t; DomainName := name; IP := ip;
                      Port := port_of hi lo; NetworkType := "tcp" |}, None, r'')
         | _ => (None, Some io_ErrUnexpectedEOF, r'')
         end)))).
  { intros t name ip r1 H1. apply with_bytes_ind; [apply H1 | |].
    - intros e r' H2. simpl. eapply advances_trans; eauto.
    - intros d r' H2. assert (advances r r') by (eapply advances_trans; eauto).
      destruct d as [|? [|? [|? ?]]]; done. }
  apply with_bytes_ind; [exact Ht | done |].
  intros a r1 H1. destruct a as [|atyp [|? ?]]; [done| |done].
  destruct (Byte.eqb atyp x01); [|destruct (Byte.eqb atyp x03);
                                   [|destruct (Byte.eqb atyp x04)]].
  - apply with_bytes_ind; [apply H1 | |].
    + intros e r' H2. simpl. eapply advances_trans; eauto.
    + intros ip r2 H2. apply Hfin. eapply advances_trans; eauto.
  - apply with_bytes_ind; [apply H1 | |].
    + intros e r' H2. simpl. eapply advances_trans; eauto.
    + intros l r2 H2. assert (H12 : advances r r2) by (eapply advances_trans; eauto).
      destruct l as [|len [|? ?]]; [done| |done].
      apply with_bytes_ind; [apply H2 | |].
      * intros e r' H3. simpl. eapply advances_trans; eauto.
      * intros name r3 H3. apply Hfin. eapply advances_trans; eauto.
  - apply with_bytes_ind; [apply H1 | |].
    + intros e r' H2. simpl. eapply advances_trans; eauto.
    + intros ip r2 H2. apply Hfin. eapply advances_trans; eauto.
  - done.
Qed.

Lemma Metadata_ReadFrom_advances (m : Metadata) (r : RewindConn) :
  tracking r -> advances r (snd (Metadata_ReadFrom m r)).
Proof.
  intros Ht. unfold Metadata_ReadFrom.
  apply with_bytes_ind; [exact Ht | done |].
  intros c r1 H1. destruct c as [|cmd [|? ?]]; [done| |done].
  pose proof (Address_ReadFrom_advances r1 (adv_tracking _ _ H1)) as H2.
  destruct (Address_ReadFrom r1) as [[a e] r2]. simpl in *.
  eapply advances_trans; eauto.
Qed.

(** [Auth] keeps the stream of the connection it reads: whatever it
    returns, the rewind buffer holds all it took. *)
Lemma Auth_advances (c c' : trojan.InboundConn) (users users' : gmap string statistic.User)
    (err : option error) :
  tracking (trojan.Conn_ c) ->
  trojan.Auth c users = (err, c', users') ->
  advances (trojan.Conn_ c) (trojan.Conn_ c').
Proof.
  intros Ht. unfold trojan.Auth.
  destruct (Rewind.Read 56 (trojan.Conn_ c)) as [[uh e0] r1] eqn:Hread.
  destruct (Read_tracking _ _ _ _ _ Ht Hread) as (H1 & _).
  destruct (_ || _); [intros [= <- <- <-]; exact H1|].
  destruct (statistic.AuthUser _ _) as [u|]; [|intros [= <- <- <-]; exact H1].
  simpl. destruct (net_SplitHostPort _) as [[ip port] [e|]];
    [intros [= <- <- <-]; exact H1|].
  destruct (statistic.AddIP ip u) as [ok u']. simpl.
  destruct ok; simpl; [|intros [= <- <- <-]; exact H1].
  destruct (ReadFull 2 r1) as [[d2 e2] r2] eqn:Hcrlf.
  apply ReadFull_advances in Hcrlf as [H2 _]; [|apply H1].
  assert (H12 := advances_trans _ _ _ H1 H2).
  destruct e2; [intros [= <- <- <-]; exact H12|]. simpl.
  pose proof (Metadata_ReadFrom_advances
                {| Command_ := x00; Address_ := None |} r2 (adv_tracking _ _ H2)) as H3.
  destruct (Metadata_ReadFrom _ r2) as [[m e3] r3]. simpl in H3.
  assert (H13 := advances_trans _ _ _ H12 H3).
  destruct e3; [intros [= <- <- <-]; exact H13|]. simpl.
  destruct (ReadFull 2 r3) as [[d4 e4] r4] eqn:Hcrlf2.
  apply ReadFull_advances in Hcrlf2 as [H4 _]; [|apply H3].
  assert (H14 := advances_trans _ _ _ H13 H4).
  destruct e4; intros [= <- <- <-]; exact H14.
Qed.

(** After a successful [Auth] the metadata is there. *)
Lemma Auth_ok_metadata (c c' : trojan.InboundConn)
    (users users' : gmap string statistic.User) :
  trojan.Auth c users = (None, c', users') ->
  exists m, trojan.metadata c' = Some m.
Proof.
  unfold trojan.Auth.
  destruct (Rewind.Read 56 (trojan.Conn_ c)) as [[uh e0] r1].
  destruct (_ || _); [discriminate|].
  destruct (statistic.AuthUser _ _) as [u|]; [|discriminate].
  simpl. destruct (net_SplitHostPort _) as [[ip port] [e|]]; [discriminate|].
  destruct (statistic.AddIP ip u) as [ok u']. simpl.
  destruct ok; simpl; [|discriminate].
  destruct (ReadFull 2 r1) as [[d2 [e2|]] r2]; [discriminate|]. simpl.
  destruct (Metadata_ReadFrom _ r2) as [[m [e3|]] r3]; [discriminate|]. simpl.
  destruct (ReadFull 2 r3) as [[d4 [e4|]] r4]; [discriminate|].
  intros [= <- <-]. simpl. eauto.
Qed.

End AuthFacts.

(** ** The trojan server: the failure path of [acceptLoop] *)

Section TrojanRedirect.

Context `{lib : GoLib}.

(** C1. When [Auth] returns an error on an accepted connection, the
    handler rewinds the connection to byte 0, stops buffering and gives
    it to the redirector with the configured fallback address as
    target; what the redirector reads from it, and so what the fallback
    origin receives once dialled, is the bytes the client sent, in
    order, from the first one: those [Auth] took and what follows. *)
Theorem trojan_auth_failure_replays_stream
    (s : trojan.Server) (conn : Conn) (e : error)
    (c' : trojan.InboundConn) (users' : gmap string statistic.User) :
  trojan.Auth (trojan.newInboundConn (SetBufferSize 128 (NewRewindConn conn)))
              (trojan.auth s) = (Some e, c', users') ->
  exists (msg : string) (rewound : RewindConn),
    trojan.handleConn s conn
    = Returns (trojan.with_auth s users',
               [EvLog LWarn msg;
                EvRedirect {| InboundConn_ := OfRewind rewound;
                              RedirectTo := Some (trojan.redirAddr s) |}])
    /\ index rewound = 0
    /\ buf rewound = buf (trojan.Conn_ c')
    /\ Rewind.pending rewound = concat (incoming conn)
    /\ forall dial : Address -> bool,
         dial (trojan.redirAddr s) = true ->
         Redirect_forwards dial {| InboundConn_ := OfRewind rewound;
                                   RedirectTo := Some (trojan.redirAddr s) |}
         = Some (concat (incoming conn)).
Proof.
  intros HAuth. unfold trojan.handleConn. rewrite HAuth.
  eexists _, (StopBuffering (Rewind (trojan.Conn_ c'))).
  split; [reflexivity|]. split; [reflexivity|]. split; [reflexivity|].
  apply Auth_advances in HAuth; [|apply fresh_tracking].
  apply rewound_pending in HAuth as [Hp _]. simpl in Hp.
  split; [exact Hp|].
  intros dial Hdial. unfold Redirect_forwards. simpl. rewrite Hdial.
  rewrite Copy_from_pending by reflexivity. now rewrite Hp.
Qed.

End TrojanRedirect.

Lemma trojan_auth_failure_replays_stream_witness :
  exists (msg : string) (rewound : RewindConn),
    @trojan.handleConn Example.lib Example.trojan_server Example.probe
    = Returns (trojan.with_auth Example.trojan_server Example.users,
               [EvLog LWarn msg;
                EvRedirect {| InboundConn_ := OfRewind rewound;
                              RedirectTo := Some Example.fallback |}])
    /\ index rewound = 0
    /\ buf rewound = list_byte_of_string
         "xxxxxxxxxxxxxxxxxxxxxxxxxxxxxxxxxxxxxxxxxxxxxxxxxxxxxxxx"
    /\ Rewind.pending rewound = concat (incoming Example.probe).
Proof.
  destruct (@trojan_auth_failure_replays_stream Example.lib Example.trojan_server
              Example.probe
              (common_Error (NewError
                 "invalid hash:xxxxxxxxxxxxxxxxxxxxxxxxxxxxxxxxxxxxxxxxxxxxxxxxxxxxxxxx"))
              (trojan.with_Conn
                 (trojan.newInboundConn (SetBufferSize 128 (NewRewindConn Example.probe)))
                 (snd (Rewind.Read 56 (SetBufferSize 128 (NewRewindConn Example.probe)))))
              Example.users)
    as (msg & rewound & H1 & H2 & H3 & H4 & _).
  - vm_compute. reflexivity.
  - exists msg, rewound. repeat split; [exact H1 | exact H2 | | exact H4].
    rewrite H3. vm_compute. reflexivity.
Defined.

(** ** The trojan server: a well-framed request *)

Section HeaderFacts.





End HeaderFacts.

Section TrojanAuth.

Context `{lib : GoLib}.

Local Arguments ReadFull : simpl never.
Local Arguments Metadata_ReadFrom : simpl never.
Local Arguments Rewind.Read : simpl never.
Local Arguments statistic.AddIP : simpl never.





(** C8. After a successful [Auth] the handler dispatches on the parsed
    command: CONNECT to the domain "MUX_CONN" goes to the mux channel,
    any other CONNECT to the connection channel, ASSOCIATE to the
    packet channel inside a [PacketConn], MUX to the mux channel; any
    other command is logged and no channel gets the connection. *)
Theorem trojan_dispatch_by_command
    (s : trojan.Server) (conn : Conn)
    (c' : trojan.InboundConn) (users' : gmap string statistic.User) :
  trojan.Auth (trojan.newInboundConn (SetBufferSize 128 (NewRewindConn conn)))
              (trojan.auth s) = (None, c', users') ->
  exists (m : Metadata) (s' : trojan.Server) (evs : list Event),
    let inboundConn := trojan.with_Conn c' (StopBuffering (trojan.Conn_ c')) in
    trojan.metadata c' = Some m
    /\ trojan.handleConn s conn = Returns (s', evs)
    /\ trojan.auth s' = users'
    /\ (Command_ m = Connect -> Metadata_DomainName m = "MUX_CONN" ->
        trojan.muxChan s' = trojan.muxChan s ++ [inboundConn]
        /\ trojan.connChan s' = trojan.connChan s
        /\ trojan.packetChan s' = trojan.packetChan s)
    /\ (Command_ m = Connect -> Metadata_DomainName m <> "MUX_CONN" ->
        trojan.connChan s' = trojan.connChan s ++ [inboundConn]
        /\ trojan.muxChan s' = trojan.muxChan s
        /\ trojan.packetChan s' = trojan.packetChan s)
    /\ (Command_ m = Associate ->
        trojan.packetChan s'
        = trojan.packetChan s ++ [{| trojan.PacketConn_Conn := inboundConn |}]
        /\ trojan.connChan s' = trojan.connChan s
        /\ trojan.muxChan s' = trojan.muxChan s)
    /\ (Command_ m = Mux ->
        trojan.muxChan s' = trojan.muxChan s ++ [inboundConn]
        /\ trojan.connChan s' = trojan.connChan s
        /\ trojan.packetChan s' = trojan.packetChan s)
    /\ (Command_ m <> Connect -> Command_ m <> Associate -> Command_ m <> Mux ->
        (exists msg, evs = [EvLog LError msg])
        /\ trojan.connChan s' = trojan.connChan s
        /\ trojan.muxChan s' = trojan.muxChan s
        /\ trojan.packetChan s' = trojan.packetChan s).
Proof.
  intros HAuth. destruct (Auth_ok_metadata _ _ _ _ HAuth) as [m Hm].
  unfold trojan.handleConn. rewrite HAuth. simpl. rewrite Hm.
  exists m. unfold trojan.dispatch, Connect, Associate, Mux.
  assert (Hne13 : x01 <> x03) by discriminate.
  assert (Hne17 : x01 <> x7f) by discriminate.
  assert (Hne37 : x03 <> x7f) by discriminate.
  destruct (Byte.eqb (Command_ m) x01) eqn:Hc.
  { apply byte_dec_bl in Hc.
    destruct (String.eqb (Metadata_DomainName m) "MUX_CONN") eqn:Hd.
    - apply String.eqb_eq in Hd. eexists _, _.
      repeat split; try reflexivity; intros; congruence.
    - apply String.eqb_neq in Hd. eexists _, _.
      repeat split; try reflexivity; intros; congruence. }
  apply eqb_false in Hc.
  destruct (Byte.eqb (Command_ m) x03) eqn:Ha.
  { apply byte_dec_bl in Ha. eexists _, _.
    repeat split; try reflexivity; intros; congruence. }
  apply eqb_false in Ha.
  destruct (Byte.eqb (Command_ m) x7f) eqn:Hx.
  { apply byte_dec_bl in Hx. eexists _, _.
    repeat split; try reflexivity; intros; congruence. }
  apply eqb_false in Hx. eexists _, _.
  repeat split; try reflexivity; intros; try congruence. eauto.
Qed.

End TrojanAuth.




(** A CONNECT to "MUX_CONN" goes to the mux channel. *)
Lemma trojan_dispatch_by_command_witness :
  exists (m : Metadata) (s' : trojan.Server) (evs : list Event),
    @trojan.handleConn Example.lib Example.trojan_server
      (Example.client x01 x08 "MUX_CONN") = Returns (s', evs)
    /\ Command_ m = Connect
    /\ Metadata_DomainName m = "MUX_CONN"
    /\ length (trojan.muxChan s') = 1
    /\ trojan.connChan s' = []
    /\ trojan.packetChan s' = [].
Proof.
  destruct (@trojan_dispatch_by_command Example.lib Example.trojan_server
              (Example.client x01 x08 "MUX_CONN")
              (snd (fst (@trojan.Auth Example.lib
                           (trojan.newInboundConn
                              (SetBufferSize 128
                                 (NewRewindConn (Example.client x01 x08 "MUX_CONN"))))
                           Example.users)))
              (snd (@trojan.Auth Example.lib
                      (trojan.newInboundConn
                         (SetBufferSize 128
                            (NewRewindConn (Example.client x01 x08 "MUX_CONN"))))
                      Example.users)))
    as (m & s' & evs & Hm & Hrun & _ & Hmux & _).
  - vm_compute. reflexivity.
  - assert (Hm' : Some m = Some {| Command_ := x01;
                         Address_ := Some (wire_address
                           (WireDomain x08 (list_byte_of_string "MUX_CONN")) x01 xbb) |}).
    { rewrite <- Hm. vm_compute. reflexivity. }
    injection Hm' as ->. destruct Hmux as (H1 & H2 & H3); [reflexivity | reflexivity |].
    exists {| Command_ := x01;
              Address_ := Some (wire_address
                (WireDomain x08 (list_byte_of_string "MUX_CONN")) x01 xbb) |}, s', evs.
    rewrite H1, H2, H3.
    repeat split; try reflexivity. exact Hrun.
Defined.

(** ** The TLS server *)

Section TLSFacts.

Context `{lib : GoLib}.

(** C3. When the handshake fails with an error whose message contains
    "first record does not look like a TLS handshake", the inbound
    stream is rewound, all the client sent pending on it from byte 0,
    and then redirected to the fallback address when one is configured,
    or else written the configured static response (nothing when none
    is configured) and closed.  For any other handshake error the
    connection is closed: no redirection, not rewound, and the handler
    writes nothing. *)
Theorem tls_handshake_error_fallback
    (s : tls.Server) (conn : Conn) (session : tls.Session)
    (e : error) (hrc : RewindConn) :
  run_Reader (tls.Handshake session) (SetBufferSize 2048 (NewRewindConn conn))
  = (Some e, hrc) ->
  let rewound := Rewind (StopBuffering hrc) in
  exists msg : string,
    (Contains (error_Error e) tls.not_tls = true ->
       index rewound = 0
       /\ Rewind.pending rewound = concat (incoming conn)
       /\ match tls.fallbackAddress s with
          | Some a =>
              tls.handleConn s conn session
              = (s, [EvLog LError msg;
                     EvRedirect {| InboundConn_ := OfRewind rewound;
                                   RedirectTo := Some a |}])
          | None =>
              exists c : RewindConn,
                tls.handleConn s conn session = (s, [EvLog LError msg; EvClose c])
                /\ closed (under c) = true
                /\ outgoing (under c)
                   = outgoing (under hrc)
                     ++ match tls.httpResp s with Some resp => resp | None => [] end
          end)
    /\ (Contains (error_Error e) tls.not_tls = false ->
          exists c : RewindConn,
            tls.handleConn s conn session
            = (s, [EvClose c;
                   EvLog LError (info (Base (NewError "tls handshake failed") (Some e)))])
            /\ closed (under c) = true
            /\ outgoing (under c) = outgoing (under hrc)
            /\ index c = index hrc).
Proof.
  intros Hrun rewound. unfold tls.handleConn. rewrite Hrun.
  eexists. split; intros Hc; rewrite Hc.
  - split; [reflexivity|]. split.
    + apply run_Reader_advances in Hrun; [|apply fresh_tracking].
      apply rewound_pending in Hrun as [_ Hp]. exact Hp.
    + destruct (tls.fallbackAddress s) as [a|]; [reflexivity|].
      destruct (tls.httpResp s) as [resp|]; eexists;
        (split; [reflexivity|]); split; try reflexivity.
      simpl. now rewrite app_nil_r.
  - eexists. split; [reflexivity|]. now repeat split.
Qed.


End TLSFacts.

(** A plain HTTP probe of the TLS port reaches the fallback, byte for byte. *)
Lemma tls_handshake_error_fallback_witness :
  exists (msg : string) (rewound : RewindConn),
    @tls.handleConn Example.lib Example.tls_server Example.http_probe Example.tls_session
    = (Example.tls_server,
       [EvLog LError msg;
        EvRedirect {| InboundConn_ := OfRewind rewound;
                      RedirectTo := Some Example.fallback |}])
    /\ index rewound = 0
    /\ Rewind.pending rewound = list_byte_of_string "GET / HTTP/1.0".
Proof.
  destruct (@tls_handshake_error_fallback Example.lib Example.tls_server
              Example.http_probe Example.tls_session
              (lib_error "tls: first record does not look like a TLS handshake")
              (snd (run_Reader (tls.Handshake Example.tls_session)
                      (SetBufferSize 2048 (NewRewindConn Example.http_probe)))))
    as (msg & Hyes & _).
  - vm_compute. reflexivity.
  - destruct Hyes as (Hi & Hp & Hrun); [vm_compute; reflexivity|].
    simpl in Hrun. eexists msg, _. split; [exact Hrun|]. split; [exact Hi|].
    transitivity (concat (incoming Example.http_probe)); [exact Hp | reflexivity].
Defined.


(** ** The websocket server *)

Section WebsocketFacts.

Context `{lib : GoLib}.

(** C7. A connection accepted while websocket is disabled is redirected
    to the fallback address and [AcceptConn] returns an error.  When it
    is enabled, a request whose [Upgrade] header, lower-cased, is not
    "websocket", or whose URL path is not the configured path, is
    rewound, all the client sent pending from byte 0, and redirected to
    the fallback address, [AcceptConn] returning an error; the upgrade
    handshake is started for the requests that pass both checks, and
    for no other. *)
Theorem websocket_accept_checks
    (s : websocket.Server) (up : websocket.Upgrade) (conn : Conn) :
  (websocket.enabled s = false ->
     exists e : error,
       websocket.AcceptConn s up (inl conn)
       = ((None, Some e),
          [EvRedirect {| InboundConn_ := OfConn conn;
                         RedirectTo := Some (websocket.redirAddr s) |}]))
  /\ (websocket.enabled s = true ->
      forall (req : Request) (rc : RewindConn),
        run_Reader http_ReadRequest (SetBufferSize 512 (NewRewindConn conn))
        = (inl req, rc) ->
        let rewound := StopBuffering (Rewind rc) in
        (strings_ToLower (Header_Upgrade req) <> "websocket"
         \/ URL_Path req <> websocket.path s ->
           exists (e : error) (log : Event),
             websocket.AcceptConn s up (inl conn)
             = ((None, Some e),
                [log; EvRedirect {| InboundConn_ := OfRewind rewound;
                                    RedirectTo := Some (websocket.redirAddr s) |}])
             /\ index rewound = 0
             /\ Rewind.pending rewound = concat (incoming conn))
        /\ (strings_ToLower (Header_Upgrade req) = "websocket" ->
            URL_Path req = websocket.path s ->
            (forall r, EvRedirect r ∉ snd (websocket.AcceptConn s up (inl conn)))
            /\ (websocket.NewConfig up
                  ("wss://" +:+ websocket.hostname s +:+ websocket.path s)
                  ("https://" +:+ websocket.hostname s) = None ->
                EvServeHTTP rc ∈ snd (websocket.AcceptConn s up (inl conn))))
        /\ (forall c, EvServeHTTP c ∈ snd (websocket.AcceptConn s up (inl conn)) ->
            strings_ToLower (Header_Upgrade req) = "websocket"
            /\ URL_Path req = websocket.path s)).
Proof.
  split.
  - intros Hoff. unfold websocket.AcceptConn. rewrite Hoff. simpl. eauto.
  - intros Hon req rc Hreq rewound. unfold websocket.AcceptConn.
    rewrite Hon, Hreq. simpl.
    destruct (String.eqb_spec (strings_ToLower (Header_Upgrade req)) "websocket")
      as [Hup|Hup];
      destruct (String.eqb_spec (URL_Path req) (websocket.path s)) as [Hpath|Hpath];
      simpl.
    2-4: (split; [|split]);
      [ intros _; eexists _, _; split; [reflexivity|]; split; [reflexivity|];
        apply run_Reader_advances in Hreq; [|apply fresh_tracking];
        apply rewound_pending in Hreq as [Hp _]; exact Hp
      | intros; congruence
      | intros c Hc; simpl in Hc;
        apply elem_of_cons in Hc as [Hc|Hc]; [discriminate|];
        apply list_elem_of_singleton in Hc; discriminate ].
    split; [intros [?|?]; congruence|]. split; [|auto].
    intros _ _.
    destruct (websocket.NewConfig up _ _) as [e|]; simpl.
    + split; [intros r Hr; inversion Hr | discriminate].
    + destruct (websocket.handshake_in_time up rc req); simpl;
        (split; [intros r Hr | intros _; apply list_elem_of_here]).
      * apply elem_of_cons in Hr as [Hr|Hr]; [discriminate|].
        apply list_elem_of_singleton in Hr. discriminate.
      * apply list_elem_of_singleton in Hr. discriminate.
Qed.

End WebsocketFacts.

(** A request for another path is sent to the fallback as it came. *)
Lemma websocket_accept_checks_witness :
  exists (e : error) (log : Event) (rewound : RewindConn),
    @websocket.AcceptConn Example.lib Example.ws_server Example.upgrade
      (inl Example.wrong_path)
    = ((None, Some e),
       [log; EvRedirect {| InboundConn_ := OfRewind rewound;
                           RedirectTo := Some Example.fallback |}])
    /\ Rewind.pending rewound = list_byte_of_string "GET /wrongpath HTTP/1.1".
Proof.
  destruct (@websocket_accept_checks Example.lib Example.ws_server Example.upgrade
              Example.wrong_path) as [_ Hon].
  destruct (Hon eq_refl
              {| Header_Upgrade := "websocket"; URL_Path := "/wrongpath" |}
              (snd (run_Reader (@http_ReadRequest Example.lib)
                      (SetBufferSize 512 (NewRewindConn Example.wrong_path)))))
    as (Hbad & _).
  - vm_compute. reflexivity.
  - destruct Hbad as (e & log & Hrun & _ & Hp); [right; discriminate|].
    eexists e, log, _. split; [exact Hrun|].
    transitivity (concat (incoming Example.wrong_path)); [exact Hp | reflexivity].
Defined.

(** ** Loading the key pair *)

Section KeyPairFacts.

Context `{keys : tls.KeyLib}.

(** C6, at the input where the code departs from it.  With a password
    configured, a key file that is read and decoded, and a key that
    [x509.DecryptPEMBlock] decrypts without error, [loadKeyPair]
    returns no key pair but the error "failed to decrypt key". *)
Theorem loadKeyPair_fails_on_decrypted_key
    (keyPath certPath password : string) (keyFile : bytes)
    (keyBlock : tls.PEMBlock) (decryptedKey : bytes) :
  password <> "" ->
  tls.ioutil_ReadFile keyPath = (keyFile, None) ->
  tls.pem_Decode keyFile = Some keyBlock ->
  tls.x509_DecryptPEMBlock keyBlock (list_byte_of_string password)
  = (decryptedKey, None) ->
  tls.loadKeyPair keyPath certPath password
  = Returns (None, Some (common_Error (NewError "failed to decrypt key"))).
Proof.
  intros Hpw Hfile Hpem Hdec. unfold tls.loadKeyPair.
  apply String.eqb_neq in Hpw. rewrite Hpw. simpl.
  now rewrite Hfile, Hpem, Hdec.
Qed.

End KeyPairFacts.

(** The key decrypts with the password "secret", and loading fails. *)
Lemma loadKeyPair_fails_on_decrypted_key_witness :
  @tls.x509_DecryptPEMBlock Example.key_lib
    {| tls.Block_Bytes := list_byte_of_string "KEY" |} (list_byte_of_string "secret")
  = (list_byte_of_string "KEY", None)
  /\ @tls.loadKeyPair Example.key_lib "server.key" "server.crt" "secret"
     = Returns (None, Some (common_Error (NewError "failed to decrypt key"))).
Proof.
  split; [reflexivity|].
  apply (@loadKeyPair_fails_on_decrypted_key Example.key_lib
           "server.key" "server.crt" "secret" (list_byte_of_string "KEY")
           {| tls.Block_Bytes := list_byte_of_string "KEY" |}
           (list_byte_of_string "KEY")).
  - discriminate.
  - reflexivity.
  - reflexivity.
  - reflexivity.
Defined.

(** ** Accept errors and [AcceptPacket] *)

Section AcceptFacts.

Context `{lib : GoLib}.

(** C9, as the code has it.  On the TLS server an accept error ends the
    accept loop: outside shutdown after a call of [log.Fatal] with the
    error, during shutdown silently; connections accepted before it are
    handled.  [AcceptPacket] of the TLS, transport and mux servers
    panics with "not supported"; the websocket server's returns the
    error "not supported".  The trojan server's accept loop logs an
    accept error and, outside shutdown, goes on accepting. *)
Theorem accept_errors_by_server :
  (forall sessions s err rest,
     tls.acceptLoop sessions s (AcceptErr err false :: rest)
     = Returns (s, [EvLog LFatal ("transport accept error" +:+ error_Error err)]))
  /\ (forall sessions s err rest,
        tls.acceptLoop sessions s (AcceptErr err true :: rest) = Returns (s, []))
  /\ (forall s overlay, tls.AcceptPacket s overlay = Panics "not supported")
  /\ (forall overlay, transport.AcceptPacket overlay = Panics "not supported")
  /\ (forall overlay, mux.AcceptPacket overlay = Panics "not supported")
  /\ (forall s overlay,
        websocket.AcceptPacket s overlay
        = Returns (None, Some (common_Error (NewError "not supported"))))
  /\ (forall s err rest,
        trojan.acceptLoop s (AcceptErr err false :: rest)
        = match trojan.acceptLoop s rest with
          | Returns (s', evs) =>
              Returns (s', EvLog LError
                             (info (Base (NewError "trojan failed to accept conn")
                                         (Some err))) :: evs)
          | Panics msg => Panics msg
          | Waits => Waits
          end).
Proof. repeat split. Qed.

End AcceptFacts.

(** C9 as stated fails: [AcceptPacket] of the TLS server, which supports
    no packets, panics and returns no error; and an accept error outside
    shutdown ends the TLS accept loop after [log.Fatal], the connection
    that follows never handled. *)
Lemma tls_AcceptPacket_panics :
  tls.AcceptPacket Example.tls_server None = Panics "not supported"
  /\ (forall r, tls.AcceptPacket Example.tls_server None <> Returns r)
  /\ @tls.acceptLoop Example.lib (fun _ => Example.tls_session) Example.tls_server
       [AcceptErr io_EOF false; AcceptOk Example.tls_client]
     = Returns (Example.tls_server, [EvLog LFatal "transport accept errorEOF"]).
Proof. repeat split. discriminate. Qed.
